(** * zinolib: the Zino 1 wire parsers, the event manager and the poll step

    A shallow embedding of [zinolib/controllers/zino1.py] and of the
    [poll] function of [examples/curitz2.py].

    Python [str] values are modelled as [string]: sequences of code points
    below 256.  Dictionaries are [gmap]s, Python lists are [list]s, integers
    are [Z].  A computation that may raise is an [outcome]; a method that
    also mutates its receiver is a function from the receiver's state to an
    [outcome] and the state it leaves behind, so that what was mutated
    before an exception was raised stays mutated. *)

From Stdlib Require Import ZArith Ascii String.
From stdpp Require Import gmap strings list fin_maps.

Local Open Scope string_scope.
Local Open Scope list_scope.
Local Open Scope Z_scope.

(** ** Exceptions and outcomes *)

(** The exception classes that the embedded code can raise or let through.
    [ProtocolError] is the session's error ([zinolib.ritz.ProtocolError]);
    [ManagerException] carries the exception it was built from;
    [OtherError] stands for any class this development does not look into
    (validation errors of the event model, socket errors, ...). *)
Inductive exn : Type :=
  | ValueError
  | IndexError
  | KeyError
  | OverflowError
  | OSError
  | ProtocolError (msg : string)
  | ManagerException (cause : exn)
  | OtherError (name : string).

Inductive outcome (A : Type) : Type :=
  | Ok (a : A)
  | Raise (e : exn).

Arguments Ok {A} a.
Arguments Raise {A} e.

Definition obind {A B} (m : outcome A) (k : A -> outcome B) : outcome B :=
  match m with
  | Ok a => k a
  | Raise e => Raise e
  end.

Notation "'do!' x <- m ; k" := (obind m (fun x => k))
  (at level 60, x pattern, m at next level, right associativity,
   format "'do!'  x  <-  m ;  '/' k").

Definition raises {A} (m : outcome A) : Prop := exists e, m = Raise e.

(** ** Python string methods used by the parsers *)

Module PyStr.

(** [str.isspace] on one code point below 256: TAB, LF, VT, FF, CR,
    FS, GS, RS, US, SPACE, NEL and NBSP. *)
Definition isspace (c : ascii) : bool :=
  let n := Z.of_nat (nat_of_ascii c) in
  ((9 <=? n) && (n <=? 13)) || ((28 <=? n) && (n <=? 32))
  || (n =? 133) || (n =? 160).

(** C's [isspace] in the C locale, which [int] uses on ASCII text. *)
Definition c_isspace (c : ascii) : bool :=
  let n := Z.of_nat (nat_of_ascii c) in
  ((9 <=? n) && (n <=? 13)) || (n =? 32).

Fixpoint lstrip_by (sp : ascii -> bool) (s : string) : string :=
  match s with
  | EmptyString => EmptyString
  | String c r => if sp c then lstrip_by sp r else s
  end.

Fixpoint rstrip_by (sp : ascii -> bool) (s : string) : string :=
  match s with
  | EmptyString => EmptyString
  | String c r =>
      match rstrip_by sp r with
      | EmptyString => if sp c then EmptyString else String c EmptyString
      | r' => String c r'
      end
  end.

(** [s.strip()] *)
Definition strip (s : string) : string := rstrip_by isspace (lstrip_by isspace s).

(** [c in s] for a one-character string [c] *)
Fixpoint contains (c : ascii) (s : string) : bool :=
  match s with
  | EmptyString => false
  | String d r => Ascii.eqb d c || contains c r
  end.

(** [s.startswith(c)] for a one-character string [c] *)
Definition startswith (c : ascii) (s : string) : bool :=
  match s with
  | EmptyString => false
  | String d _ => Ascii.eqb d c
  end.

(** The text before and after the first [sep], when there is one. *)
Fixpoint cut (sep : ascii) (s : string) : option (string * string) :=
  match s with
  | EmptyString => None
  | String c r =>
      if Ascii.eqb c sep then Some (EmptyString, r)
      else match cut sep r with
           | Some (a, b) => Some (String c a, b)
           | None => None
           end
  end.

(** [s.split(sep, 1)]: at most one split, so one or two pieces. *)
Definition split_1 (sep : ascii) (s : string) : list string :=
  match cut sep s with
  | Some (a, b) => [a; b]
  | None => [s]
  end.

(** [s.split(sep)]: every occurrence splits; never the empty list. *)
Fixpoint split (sep : ascii) (s : string) : list string :=
  match s with
  | EmptyString => [EmptyString]
  | String c r =>
      if Ascii.eqb c sep then EmptyString :: split sep r
      else match split sep r with
           | h :: t => String c h :: t
           | [] => [String c EmptyString]
           end
  end.

(** [sep.join(l)] *)
Fixpoint join (sep : string) (l : list string) : string :=
  match l with
  | [] => EmptyString
  | [x] => x
  | x :: r => x +:+ sep +:+ join sep r
  end.

(** Tuple unpacking [a, b = l]: a [ValueError] unless [l] has two items. *)
Definition unpack2 {A} (l : list A) : outcome (A * A) :=
  match l with
  | [a; b] => Ok (a, b)
  | _ => Raise ValueError
  end.

(** *** [int(s)] for a string in base ten

    CPython first turns every non-ASCII space into a blank, then skips
    C-locale white space on both sides, reads an optional sign and
    digits that single underscores may separate, and refuses a text of
    more than 4300 digits (the default of [sys.set_int_max_str_digits]). *)
Definition int_space (c : ascii) : bool :=
  let n := Z.of_nat (nat_of_ascii c) in
  c_isspace c || (n =? 133) || (n =? 160).

Definition digit_val (c : ascii) : option Z :=
  let n := Z.of_nat (nat_of_ascii c) in
  if (48 <=? n) && (n <=? 57) then Some (n - 48) else None.

Fixpoint count_digits (s : string) : Z :=
  match s with
  | EmptyString => 0
  | String c r => (if digit_val c is Some _ then 1 else 0) + count_digits r
  end.

(** The digits after the first one, [acc] being the value read so far. *)
Fixpoint int_digits (acc : Z) (s : string) : option Z :=
  match s with
  | EmptyString => Some acc
  | String c r =>
      match digit_val c with
      | Some d => int_digits (10 * acc + d) r
      | None =>
          if Ascii.eqb c "_" then
            match r with
            | String c' r' =>
                match digit_val c' with
                | Some d => int_digits (10 * acc + d) r'
                | None => None
                end
            | EmptyString => None
            end
          else None
      end
  end.

Definition int_unsigned (s : string) : option Z :=
  match s with
  | String c r =>
      match digit_val c with
      | Some d => if 4300 <? count_digits s then None else int_digits d r
      | None => None
      end
  | EmptyString => None
  end.

Definition int (s : string) : outcome Z :=
  let t := rstrip_by int_space (lstrip_by int_space s) in
  let r :=
    match t with
    | String "-" u => Z.opp <$> int_unsigned u
    | String "+" u => int_unsigned u
    | _ => int_unsigned t
    end in
  match r with
  | Some n => Ok n
  | None => Raise ValueError
  end.

End PyStr.

(** ** EventAdapter *)

Module EventAdapter.

Definition FIELD_MAP : list (string * string) :=
  [ ("state", "adm_state");
    ("bfdAddr", "bfd_addr");
    ("bfdDiscr", "bfd_discr");
    ("bfdState", "bfd_state");
    ("bfdIx", "bfd_ix");
    ("bgpAS", "bgp_AS");
    ("bgpOS", "bgp_OS");
    ("ifindex", "if_index");
    ("portstate", "port_state") ].

(** [FIELD_MAP.get(k, k)] *)
Definition FIELD_MAP_get (k : string) : string :=
  default k ((list_to_map FIELD_MAP : gmap string string) !! k).

(** The key under which a line is stored: the three statements of the
    loop body that rewrite [k], and the [k.strip()] of the assignment. *)
Definition normalize_key (k : string) : string :=
  let k := if PyStr.contains "-" k then PyStr.join "_" (PyStr.split "-" k) else k in
  let k := FIELD_MAP_get k in
  PyStr.strip k.

(** One turn of the loop of [attrlist_to_attrdict]. *)
Definition attr_item (event_dict : gmap string string) (item : string)
  : outcome (gmap string string) :=
  do! (k, v) <- PyStr.unpack2 (PyStr.split_1 ":" item);
  Ok (<[normalize_key k := PyStr.strip v]> event_dict).

Fixpoint attr_loop (event_dict : gmap string string) (attrlist : list string)
  : outcome (gmap string string) :=
  match attrlist with
  | [] => Ok event_dict
  | item :: rest =>
      do! d <- attr_item event_dict item;
      attr_loop d rest
  end.

Definition attrlist_to_attrdict (attrlist : list string) : outcome (gmap string string) :=
  attr_loop ∅ attrlist.

End EventAdapter.


(** ** Timestamps *)

(** A [datetime] in UTC with whole seconds. *)
Record datetime : Type := mk_datetime {
  year : Z; month : Z; day : Z;
  hour : Z; minute : Z; second : Z
}.

(** The proleptic Gregorian date of a day number counted from 1970-01-01. *)
Definition civil_from_days (days : Z) : Z * Z * Z :=
  let z := days + 719468 in
  let era := z / 146097 in
  let doe := z - era * 146097 in
  let yoe := (doe - doe / 1460 + doe / 36524 - doe / 146096) / 365 in
  let doy := doe - (365 * yoe + yoe / 4 - yoe / 100) in
  let mp := (5 * doy + 2) / 153 in
  let d := doy - (153 * mp + 2) / 5 + 1 in
  let m := if mp <? 10 then mp + 3 else mp - 9 in
  let y := yoe + era * 400 + (if m <=? 2 then 1 else 0) in
  (y, m, d).

Definition gmtime (timestamp : Z) : datetime :=
  let days := timestamp / 86400 in
  let secs := timestamp mod 86400 in
  let '(y, m, d) := civil_from_days days in
  mk_datetime y m d (secs / 3600) (secs mod 3600 / 60) (secs mod 60).

(** [datetime.fromtimestamp(timestamp, timezone.utc)] for an [int], as
    CPython on 64-bit Linux has it: an [OverflowError] outside [time_t], an
    [OSError] where [gmtime] cannot hold the year, a [ValueError] for a
    year outside 1..9999. *)
Definition convert_timestamp (timestamp : Z) : outcome datetime :=
  if (timestamp <? - 2 ^ 63) || (2 ^ 63 <=? timestamp) then Raise OverflowError
  else if (timestamp <? -67768040609740800) || (67768036191676799 <? timestamp)
       then Raise OSError
  else if (timestamp <? -62135596800) || (253402300799 <? timestamp)
       then Raise ValueError
  else Ok (gmtime timestamp).

(** ** HistoryAdapter *)

Record HistoryDict : Type := mk_history {
  h_date : datetime;
  h_user : string;
  h_log : string
}.

Module HistoryAdapter.

Definition SYSTEM_USER : string := "monitor".

(** [history_list[-1]["log"] += text] *)
Definition append_to_last_log (history_list : list HistoryDict) (text : string)
  : outcome (list HistoryDict) :=
  match last history_list with
  | None => Raise IndexError
  | Some e =>
      Ok (<[Nat.pred (length history_list) :=
             mk_history (h_date e) (h_user e) (h_log e +:+ text)]> history_list)
  end.

(** One turn of the first loop of [parse_response]. *)
Definition history_row (history_list : list HistoryDict) (row : string)
  : outcome (list HistoryDict) :=
  if String.eqb row " " then Ok history_list
  else if PyStr.startswith " " row then
    append_to_last_log history_list (PyStr.strip row +:+ " ")
  else
    do! (timestamp, body) <- PyStr.unpack2 (PyStr.split_1 " " row);
    do! ts <- PyStr.int timestamp;
    do! dt <- convert_timestamp ts;
    let entry :=
      if PyStr.contains " " body
      then mk_history dt SYSTEM_USER body
      else mk_history dt body "" in
    Ok (history_list ++ [entry]).

Fixpoint history_loop (history_list : list HistoryDict) (history_data : list string)
  : outcome (list HistoryDict) :=
  match history_data with
  | [] => Ok history_list
  | row :: rest =>
      do! l <- history_row history_list row;
      history_loop l rest
  end.

(** The second loop: [entry["log"] = entry["log"].strip()]. *)
Definition strip_log (entry : HistoryDict) : HistoryDict :=
  mk_history (h_date entry) (h_user entry) (PyStr.strip (h_log entry)).

Definition parse_response (history_data : list string) : outcome (list HistoryDict) :=
  do! history_list <- history_loop [] history_data;
  Ok (strip_log <$> history_list).

End HistoryAdapter.

(** ** LogAdapter *)

Record LogDict : Type := mk_log {
  l_date : datetime;
  l_log : string
}.

Module LogAdapter.

Definition log_row (log_list : list LogDict) (row : string) : outcome (list LogDict) :=
  do! (timestamp, log) <- PyStr.unpack2 (PyStr.split_1 " " row);
  do! ts <- PyStr.int timestamp;
  do! dt <- convert_timestamp ts;
  Ok (log_list ++ [mk_log dt log]).

Fixpoint log_loop (log_list : list LogDict) (log_data : list string)
  : outcome (list LogDict) :=
  match log_data with
  | [] => Ok log_list
  | row :: rest =>
      do! l <- log_row log_list row;
      log_loop l rest
  end.

Definition parse_response (log_data : list string) : outcome (list LogDict) :=
  log_loop [] log_data.

End LogAdapter.

(** ** Collaborators of the event manager *)

(** A value of an attribute dictionary after [convert_values]. *)
Inductive value : Type :=
  | VStr (s : string)
  | VInt (n : Z).

(** The session ([zinolib.ritz.ritz]) is not among the sources embedded
    here; it is taken as an interface.  A call answers with an [outcome] and leaves the session in
    a new state.  [get_raw_history] and [get_raw_log] stand for the call
    followed by [.data]. *)
Class Session (S : Type) : Type := {
  get_caseids : S -> outcome (list Z) * S;
  get_raw_attributes : Z -> S -> outcome (list string) * S;
  get_raw_history : Z -> S -> outcome (list string) * S;
  get_raw_log : Z -> S -> outcome (list string) * S;
  add_history : Z -> string -> S -> outcome bool * S;
  set_state : Z -> string -> S -> outcome bool * S
}.

(** The event model ([zinolib.event_types]) is not among the sources
    embedded here; what the manager uses of it is taken as an interface. *)
Class EventTypes : Type := {
  Event : Type;
  HistoryEntry : Type;
  LogEntry : Type;
  AdmState : Type;
  HistoryEntry_eq_dec :: EqDecision HistoryEntry;
  Event_create : gmap string value -> outcome Event;
  Event_id : Event -> Z;
  Event_history : Event -> list HistoryEntry;
  Event_set_history : list HistoryEntry -> Event -> Event;
  HistoryEntry_create_list : list HistoryDict -> outcome (list HistoryEntry);
  LogEntry_create_list : list LogDict -> outcome (list LogEntry);
  AdmState_value : AdmState -> string
}.

(** The state of a manager object: [self.session] and [self.events]. *)
Record manager (S : Type) `{EventTypes} : Type := mk_manager {
  session : S;
  events : gmap Z Event
}.

Arguments mk_manager {S _} session events.
Arguments session {S _} m.
Arguments events {S _} m.

(** A method of the manager: it answers and leaves the manager in a new
    state, also when it raises. *)
Definition M (S : Type) `{EventTypes} (A : Type) : Type :=
  manager S -> outcome A * manager S.

Definition mret {S} `{EventTypes} {A} (a : A) : M S A := fun m => (Ok a, m).

Definition mbind {S} `{EventTypes} {A B} (c : M S A) (k : A -> M S B) : M S B :=
  fun m =>
    match c m with
    | (Ok a, m') => k a m'
    | (Raise e, m') => (Raise e, m')
    end.

Notation "'do*' x <- c ; k" := (mbind c (fun x => k))
  (at level 60, x pattern, c at next level, right associativity,
   format "'do*'  x  <-  c ;  '/' k").

(** A computation that touches neither the session nor the store. *)
Definition pure {S} `{EventTypes} {A} (o : outcome A) : M S A := fun m => (o, m).

(** A call on [self.session]. *)
Definition call {S} `{EventTypes} {A} (f : S -> outcome A * S) : M S A :=
  fun m => let '(r, s') := f (session m) in (r, mk_manager s' (events m)).

Fixpoint for_each {S} `{EventTypes} {A} (l : list A) (body : A -> M S unit) : M S unit :=
  match l with
  | [] => mret tt
  | x :: rest => do* _ <- body x; for_each rest body
  end.

(** *** [convert_values] *)

Module Converters.

(** [int] as a converter of attribute values. *)
Definition int (v : value) : outcome value :=
  match v with
  | VStr s => do! n <- PyStr.int s; Ok (VInt n)
  | VInt n => Ok (VInt n)
  end.

Definition FIELD_VALUE_CONVERTER_MAP : list (string * (value -> outcome value)) :=
  [ ("ac_down", int) ].

Fixpoint convert_loop (table : list (string * (value -> outcome value)))
    (attrdict : gmap string value) : outcome (gmap string value) :=
  match table with
  | [] => Ok attrdict
  | (field_name, function) :: rest =>
      match attrdict !! field_name with
      | Some v =>
          do! value <- function v;
          convert_loop rest (<[field_name := value]> attrdict)
      | None => convert_loop rest attrdict
      end
  end.

Definition convert_values (attrdict : gmap string string) : outcome (gmap string value) :=
  convert_loop FIELD_VALUE_CONVERTER_MAP (VStr <$> attrdict).

End Converters.

(** ** Zino1EventManager *)

Section Zino1EventManager.

Context {S : Type} `{Session S} `{EventTypes}.

(** [check_session], [set_history_for_event] and [set_log_for_event]
    belong to the base class [EventManager] ([zinolib.controllers.base]),
    which is not among the sources embedded here; they are parameters.  [check_session] only looks at the session. *)
Variable check_session : S -> outcome unit.
Variable set_history_for_event : Event -> list HistoryEntry -> M S Event.
Variable set_log_for_event : Event -> list LogEntry -> M S Event.

(** Modelled from the spec: [_get_event] of the base class is missing
    from the sources; the store is a mapping from event id to Event and this reads
    it, raising as a dictionary does for a key it does not hold. *)
Definition _get_event (event_id : Z) : M S Event :=
  fun m =>
    match events m !! event_id with
    | Some event => (Ok event, m)
    | None => (Raise KeyError, m)
    end.

(** Modelled from the spec: [_set_event] of the base class is missing
    from the sources; it writes the event back into the store under its own
    id. *)
Definition _set_event (event : Event) : M S unit :=
  fun m => (Ok tt, mk_manager (session m) (<[Event_id event := event]> (events m))).

(** [self.events[event_id] = event] *)
Definition store_event (event_id : Z) (event : Event) : M S unit :=
  fun m => (Ok tt, mk_manager (session m) (<[event_id := event]> (events m))).

Definition checked : M S unit := fun m => (check_session (session m), m).

Definition rename_exception {A} (function : M S A) : M S A :=
  fun m =>
    match function m with
    | (Raise (ProtocolError msg), m') => (Raise (ManagerException (ProtocolError msg)), m')
    | r => r
    end.

Definition create_event_from_id (event_id : Z) : M S Event :=
  do* _ <- checked;
  do* attrlist <- rename_exception (call (get_raw_attributes event_id));
  do* attrdict <- pure (EventAdapter.attrlist_to_attrdict attrlist);
  do* attrdict <- pure (Converters.convert_values attrdict);
  pure (Event_create attrdict).

(** The body of the loop of [get_events]. *)
Definition fetch_and_store (event_id : Z) : M S unit :=
  do* event <- create_event_from_id event_id;
  store_event event_id event.

Definition get_events : M S unit :=
  do* _ <- checked;
  do* ids <- call get_caseids;
  for_each ids fetch_and_store.

Definition get_history_for_id (event_id : Z) : M S (list HistoryEntry) :=
  do* _ <- checked;
  do* raw_history <- rename_exception (call (get_raw_history event_id));
  do* parsed_history <- pure (HistoryAdapter.parse_response raw_history);
  pure (HistoryEntry_create_list parsed_history).

Definition get_log_for_id (event_id : Z) : M S (list LogEntry) :=
  do* _ <- checked;
  do* raw_log <- rename_exception (call (get_raw_log event_id));
  do* parsed_log <- pure (LogAdapter.parse_response raw_log);
  pure (LogEntry_create_list parsed_log).

Definition get_updated_event_for_id (event_id : Z) : M S Event :=
  do* event <- create_event_from_id event_id;
  do* history_list <- get_history_for_id (Event_id event);
  do* event <- set_history_for_event event history_list;
  do* log_list <- get_log_for_id (Event_id event);
  do* event <- set_log_for_event event log_list;
  mret event.

(** [EventAdapter.set_admin_state] *)
Definition set_admin_state (event : Event) (state : AdmState) : M S bool :=
  call (set_state (Event_id event) (AdmState_value state)).

Definition change_admin_state_for_id (event_id : Z) (admin_state : AdmState)
  : M S (option Event) :=
  do* _ <- checked;
  do* event <- _get_event event_id;
  do* success <- set_admin_state event admin_state;
  if success then
    do* event <- get_updated_event_for_id event_id;
    do* _ <- _set_event event;
    mret (Some event)
  else mret None.

(** [HistoryAdapter.add].  The event it is given is the store's own
    object for [event_id], so the history it assigns shows in the store:
    the assignment is written as an update of that store entry. *)
Definition HistoryAdapter_add (message : string) (event_id : Z) (event : Event)
  : M S (option Event) :=
  do* success <- call (add_history (Event_id event) message);
  if success then
    do* raw_history <- call (get_raw_history (Event_id event));
    do* parsed_history <- pure (HistoryAdapter.parse_response raw_history);
    do* new_history <- pure (HistoryEntry_create_list parsed_history);
    if decide (new_history <> Event_history event) then
      let event' := Event_set_history new_history event in
      do* _ <- store_event event_id event';
      mret (Some event')
    else mret (Some event)
  else mret None.

Definition add_history_entry_for_id (event_id : Z) (message : string)
  : M S (option Event) :=
  do* _ <- checked;
  do* event <- _get_event event_id;
  do* success <- HistoryAdapter_add message event_id event;
  match success with
  | Some _ =>
      do* event <- get_updated_event_for_id event_id;
      do* _ <- _set_event event;
      mret (Some event)
  | None => mret None
  end.

End Zino1EventManager.

(** ** A scripted session and a small event model

    Stand-ins for the collaborators, to run the manager on concrete
    inputs.  The session answers from a script and remembers the requests
    it was sent. *)

#[global] Instance datetime_eq_dec : EqDecision datetime.
Proof. solve_decision. Defined.

#[global] Instance HistoryDict_eq_dec : EqDecision HistoryDict.
Proof. solve_decision. Defined.

Module Demo.

Inductive request : Type :=
  | ReqCaseids
  | ReqAttributes (id : Z)
  | ReqHistory (id : Z)
  | ReqLog (id : Z)
  | ReqAddHistory (id : Z) (message : string)
  | ReqSetState (id : Z) (state : string).

Record script : Type := mk_script {
  caseids : outcome (list Z);
  attributes : Z -> outcome (list string);
  history : Z -> outcome (list string);
  log : Z -> outcome (list string);
  add_history_ack : outcome bool;
  set_state_ack : outcome bool
}.

Definition scripted (sc : script) : Session (list request) := {|
  get_caseids := fun s => (caseids sc, s ++ [ReqCaseids]);
  get_raw_attributes := fun id s => (attributes sc id, s ++ [ReqAttributes id]);
  get_raw_history := fun id s => (history sc id, s ++ [ReqHistory id]);
  get_raw_log := fun id s => (log sc id, s ++ [ReqLog id]);
  add_history := fun id msg s => (add_history_ack sc, s ++ [ReqAddHistory id msg]);
  set_state := fun id st s => (set_state_ack sc, s ++ [ReqSetState id st])
|}.

Record event : Type := mk_event {
  e_id : Z;
  e_attrs : gmap string value;
  e_history : list HistoryDict;
  e_log : list LogDict
}.

(** An event needs an [id] attribute that reads as an integer. *)
Definition create (attrdict : gmap string value) : outcome event :=
  match attrdict !! "id" with
  | Some (VStr s) => do! n <- PyStr.int s; Ok (mk_event n attrdict [] [])
  | _ => Raise (OtherError "ValidationError")
  end.

#[local] Instance types : EventTypes := {|
  Event := event;
  HistoryEntry := HistoryDict;
  LogEntry := LogDict;
  AdmState := string;
  Event_create := create;
  Event_id := e_id;
  Event_history := e_history;
  Event_set_history := fun h e => mk_event (e_id e) (e_attrs e) h (e_log e);
  HistoryEntry_create_list := Ok;
  LogEntry_create_list := Ok;
  AdmState_value := fun st => st
|}.

Definition check_session (s : list request) : outcome unit := Ok tt.

Definition set_history_for_event (e : event) (h : list HistoryDict)
  : M (list request) event :=
  mret (mk_event (e_id e) (e_attrs e) h (e_log e)).

Definition set_log_for_event (e : event) (l : list LogDict)
  : M (list request) event :=
  mret (mk_event (e_id e) (e_attrs e) (e_history e) l).

(** Three ids, the second of which the session cannot fetch. *)
Definition one_bad_id : script := {|
  caseids := Ok [1; 2; 3];
  attributes := fun id =>
    if id =? 2 then Raise (ProtocolError "no such case")
    else Ok ["id:" +:+ (if id =? 1 then "1" else "3"); "state:open"];
  history := fun _ => Ok [];
  log := fun _ => Ok [];
  add_history_ack := Ok true;
  set_state_ack := Ok true
|}.

(** A session that declines every change of state. *)
Definition declining : script := {|
  caseids := Ok [1];
  attributes := fun _ => Ok ["id:1"; "state:open"];
  history := fun _ => Ok [];
  log := fun _ => Ok [];
  add_history_ack := Ok false;
  set_state_ack := Ok false
|}.

(** A session that has lost its connection. *)
Definition disconnected : script := {|
  caseids := Raise (ProtocolError "not connected");
  attributes := fun _ => Raise (ProtocolError "not connected");
  history := fun _ => Raise (ProtocolError "not connected");
  log := fun _ => Raise (ProtocolError "not connected");
  add_history_ack := Raise (ProtocolError "not connected");
  set_state_ack := Raise (ProtocolError "not connected")
|}.

Definition event_1 : event :=
  mk_event 1 (<["id" := VStr "1"]> {["adm_state" := VStr "open"]}) [] [].

(** A manager that holds event 1 and has sent no request yet. *)
Definition manager_1 : manager (list request) := mk_manager [] {[1 := event_1]}.

Definition fresh : manager (list request) := mk_manager [] ∅.

End Demo.

(** ** The poll step of the dashboard ([examples/curitz2.py]) *)

(** Modelled from the spec: the notifier and its notification type
    ([ritz.notifier]) are missing from the sources; the spec gives a
    notification as
    [Notification{id, type, case?}], the last one an auxiliary id that only
    some kinds carry. *)
Record Notification : Type := mk_notification {
  n_id : Z;
  n_type : string;
  n_case : option Z
}.

(** [l.remove(x)]: the first occurrence goes; a [ValueError] without one. *)
Fixpoint list_remove (x : Z) (l : list Z) : outcome (list Z) :=
  match l with
  | [] => Raise ValueError
  | y :: rest =>
      if decide (y = x) then Ok rest
      else do! rest' <- list_remove x rest; Ok (y :: rest')
  end.

Section Poll.

(** The session, the case objects it hands out and the notifier are not
    among the sources embedded here: [session_case] is [session.case(id)]
    and [notifier_poll] is [notifier.poll()]. *)
Context {Sess Case Notif : Type}.
Variable session_case : Z -> Sess -> outcome Case * Sess.
Variable notifier_poll : Notif -> outcome (option Notification) * Notif.

(** The globals [cases], [cases_selected], [session] and [notifier],
    and a record of the ids that were handed to [session.case], kept to
    say which fetches a step makes. *)
Record dashboard : Type := mk_dashboard {
  cases : gmap Z Case;
  cases_selected : list Z;
  d_session : Sess;
  d_notifier : Notif;
  fetched : list Z
}.

(** [cases[id] = session.case(id)] *)
Definition fetch_case (id : Z) (d : dashboard) : outcome (option bool) * dashboard :=
  let '(r, s') := session_case id (d_session d) in
  let log := fetched d ++ [id] in
  match r with
  | Ok c =>
      (Ok (Some true),
       mk_dashboard (<[id := c]> (cases d)) (cases_selected d) s' (d_notifier d) log)
  | Raise e =>
      (Raise e, mk_dashboard (cases d) (cases_selected d) s' (d_notifier d) log)
  end.

(** [update.case in cases_selected] *)
Definition case_selected (update : Notification) (d : dashboard) : bool :=
  match n_case update with
  | Some c => bool_decide (c ∈ cases_selected d)
  | None => false
  end.

(** The branch for [scavenged]. *)
Definition scavenge (update : Notification) (d : dashboard)
  : outcome (option bool) * dashboard :=
  let d1 := mk_dashboard (delete (n_id update) (cases d)) (cases_selected d)
              (d_session d) (d_notifier d) (fetched d) in
  if case_selected update d1 then
    match list_remove (n_id update) (cases_selected d1) with
    | Ok l =>
        (Ok (Some true),
         mk_dashboard (cases d1) l (d_session d1) (d_notifier d1) (fetched d1))
    | Raise e => (Raise e, d1)
    end
  else (Ok (Some true), d1).

(** The chain of tests on [update.type]; the result is what [poll]
    returns: [None], [True] or [False]. *)
Definition dispatch (update : Notification) (d : dashboard)
  : outcome (option bool) * dashboard :=
  if String.eqb (n_type update) "state" then fetch_case (n_id update) d
  else if String.eqb (n_type update) "attr" then fetch_case (n_id update) d
  else if String.eqb (n_type update) "history" then (Ok (Some true), d)
  else if String.eqb (n_type update) "log" then (Ok (Some true), d)
  else if String.eqb (n_type update) "scavenged" then scavenge update d
  else (Ok (Some false), d).

(** The body of [if update:]. *)
Definition reconcile (update : Notification) (d : dashboard)
  : outcome (option bool) * dashboard :=
  if bool_decide (cases d !! n_id update = None) then
    if negb (String.eqb (n_type update) "state") then (Ok None, d)
    else dispatch update d
  else dispatch update d.

Definition poll (d : dashboard) : outcome (option bool) * dashboard :=
  let '(r, n') := notifier_poll (d_notifier d) in
  let d' := mk_dashboard (cases d) (cases_selected d) (d_session d) n' (fetched d) in
  match r with
  | Ok (Some update) => reconcile update d'
  | Ok None => (Ok None, d')
  | Raise e => (Raise e, d')
  end.

End Poll.

Arguments dashboard : clear implicits.
Arguments cases {Sess Case Notif} d.
Arguments cases_selected {Sess Case Notif} d.
Arguments d_session {Sess Case Notif} d.
Arguments d_notifier {Sess Case Notif} d.
Arguments fetched {Sess Case Notif} d.
Arguments mk_dashboard {Sess Case Notif} cases cases_selected d_session d_notifier fetched.

(** The dashboard once the notifier has handed out a notification. *)
Definition polled {Sess Case Notif : Type} (d : dashboard Sess Case Notif) (n' : Notif)
  : dashboard Sess Case Notif :=
  mk_dashboard (cases d) (cases_selected d) (d_session d) n' (fetched d).

(** A notifier that hands out a queue of notifications, and a session
    whose cases are their own ids. *)
Module PollDemo.

Definition notifier_poll (queue : list Notification)
  : outcome (option Notification) * list Notification :=
  match queue with
  | [] => (Ok None, [])
  | update :: rest => (Ok (Some update), rest)
  end.

Definition session_case (id : Z) (s : unit) : outcome Z * unit := (Ok id, s).

Definition poll := @poll unit Z (list Notification) session_case notifier_poll.

(** Event 5 is selected and is not in the store. *)
Definition stale_selection (queue : list Notification) :=
  mk_dashboard (∅ : gmap Z Z) [5] tt queue [].

(** Event 1 is in the store and selected. *)
Definition selected_1 (queue : list Notification) :=
  mk_dashboard ({[1 := 1]} : gmap Z Z) [1] tt queue [].

End PollDemo.

(** ** What the spec says of the Attribute Parser *)

Module AttrSpec.

(** Every [a] of [s] becomes [b]. *)
Fixpoint replace_char (a b : ascii) (s : string) : string :=
  match s with
  | EmptyString => EmptyString
  | String c r => String (if Ascii.eqb c a then b else c) (replace_char a b r)
  end.

(** The text before the first [:] of a line, and the text after it. *)
Definition key_text (item : string) : string :=
  match PyStr.cut ":" item with
  | Some (k, _) => k
  | None => item
  end.

Definition value_text (item : string) : string :=
  match PyStr.cut ":" item with
  | Some (_, v) => v
  | None => EmptyString
  end.

(** The key as the spec words it: hyphens become underscores, then the
    rename table. *)
Definition claimed_key (k : string) : string :=
  EventAdapter.FIELD_MAP_get (replace_char "-" "_" k).

Definition claimed_attrdict (attrlist : list string) : gmap string string :=
  foldl (fun d item => <[claimed_key (key_text item) := PyStr.strip (value_text item)]> d)
        ∅ attrlist.

(** The same with the key trimmed after the rename table. *)
Definition trimmed_key (k : string) : string := PyStr.strip (claimed_key k).

Definition trimmed_attrdict (attrlist : list string) : gmap string string :=
  foldl (fun d item => <[trimmed_key (key_text item) := PyStr.strip (value_text item)]> d)
        ∅ attrlist.

(** The normalized key of a line, in the words of the spec and with the
    trim: the text before the first [:] of the line, its hyphens turned
    into underscores, renamed by the table, then trimmed. *)
Definition normalized_key (item : string) : string := trimmed_key (key_text item).

(** The normalized keys of a block without the trim, as the spec words
    the normalization. *)
Definition claimed_keys (attrlist : list string) : list string :=
  (fun item => claimed_key (key_text item)) <$> attrlist.

(** The key of a line as the parser stores it. *)
Definition line_key (item : string) : string :=
  EventAdapter.normalize_key (key_text item).

Definition has_colon (item : string) : Prop := PyStr.contains ":" item = true.

(** What a line with a [:] does to the dictionary. *)
Definition store_line (d : gmap string string) (item : string) : gmap string string :=
  <[line_key item := PyStr.strip (value_text item)]> d.

End AttrSpec.

(** ** The history example and a second route to its dates *)

(** The day number of a date, counted the way Python's [datetime] counts
    ordinals, and from it the seconds since the epoch of a UTC date: a
    second route to check [gmtime] by. *)
Definition days_before_year (y : Z) : Z :=
  let y1 := y - 1 in y1 * 365 + y1 / 4 - y1 / 100 + y1 / 400.

Definition is_leap (y : Z) : bool :=
  (y mod 4 =? 0) && (negb (y mod 100 =? 0) || (y mod 400 =? 0)).

(** The days of a common year before each month. *)
Definition month_table : list Z :=
  [0; 31; 59; 90; 120; 151; 181; 212; 243; 273; 304; 334].

Definition days_before_month (y m : Z) : Z :=
  nth (Z.to_nat (m - 1)) month_table 0
  + (if (2 <? m) && is_leap y then 1 else 0).

Definition days_of (ymd : Z * Z * Z) : Z :=
  let '(y, m, d) := ymd in days_before_year y + days_before_month y m + d - 719163.

Definition timestamp_of (dt : datetime) : Z :=
  days_of (year dt, month dt, day dt) * 86400
  + hour dt * 3600 + minute dt * 60 + second dt.

Definition history_example : list string :=
  [ "1678273372 state change embryonic -> open (monitor)";
    "1678276375 alice";
    " manual note ";
    " " ].

(** The first line of a block that is not the marker. *)
Definition first_line (history_data : list string) : option string :=
  List.find (fun row => negb (String.eqb row " ")) history_data.

Definition TAB : ascii := "009"%char.

(** ** More of [examples/curitz2.py] *)

(** [s.replace(old, new)] for a non-empty [old]: the occurrences of [old]
    are taken from the left and do not overlap.  [skip] counts the
    characters of a replaced occurrence that are still to be passed over. *)
Fixpoint replace_from (old new : string) (skip : nat) (s : string) : string :=
  match s with
  | EmptyString => EmptyString
  | String c r =>
      match skip with
      | Datatypes.S k => replace_from old new k r
      | O =>
          if String.prefix old s
          then new +:+ replace_from old new (Nat.pred (String.length old)) r
          else String c (replace_from old new 0 r)
      end
  end.

Definition replace (old new s : string) : string := replace_from old new 0 s.

(** The replacements of [interfaceRenamer], in the order of its
    statements. *)
Definition interface_rules : list (string * string) :=
  [ ("HundredGigE", "Hu");
    ("GigabitEthernet", "Gi");
    ("TenGigiabitEthernet", "Te");
    ("TenGigE", "Te");
    ("FastEthernet", "Fa");
    ("Port-channel", "Po");
    ("Loopback", "Lo");
    ("Tunnel", "Tu");
    ("Ethernet", "Eth");
    ("Vlan", "Vl") ].

Definition interfaceRenamer (s : string) : string :=
  foldl (fun s rule => replace rule.1 rule.2 s) s interface_rules.

(** The branch of [runner] for the key [x], as it acts on
    [cases_selected]: the id of the active line is taken out of the
    selection when it is in it, and put at its end when it is not. *)
Definition toggle_selected (id : Z) (cases_selected : list Z) : outcome (list Z) :=
  if bool_decide (id ∈ cases_selected)
  then list_remove id cases_selected
  else Ok (cases_selected ++ [id]).

(** ** Words for the statements about the parsers *)

(** A string with no white space in front. *)
Definition no_lead (sp : ascii -> bool) (s : string) : Prop :=
  match s with
  | EmptyString => True
  | String c _ => sp c = false
  end.

(** A history line that starts an entry: it does not start with a blank. *)
Definition entry_start (row : string) : bool := negb (PyStr.startswith " " row).

(** The entry that a line that starts one gives: the [else] branch of
    the first loop of [HistoryAdapter.parse_response], up to the [append]. *)
Definition new_entry (row : string) : outcome HistoryDict :=
  do! (timestamp, body) <- PyStr.unpack2 (PyStr.split_1 " " row);
  do! ts <- PyStr.int timestamp;
  do! dt <- convert_timestamp ts;
  Ok (if PyStr.contains " " body
      then mk_history dt HistoryAdapter.SYSTEM_USER body
      else mk_history dt body "").

(** The lines of a block other than the end-of-entry marker. *)
Definition without_markers (history_data : list string) : list string :=
  List.filter (fun row => negb (String.eqb row " ")) history_data.

(** An author as the History Parser writes one: the system user, or a
    word without a blank. *)
Definition author_ok (user : string) : Prop :=
  user = HistoryAdapter.SYSTEM_USER \/ PyStr.contains " " user = false.

(** What the Log Parser makes of one line. *)
Definition log_line (row : string) (entry : LogDict) : Prop :=
  exists timestamp n,
    PyStr.cut " " row = Some (timestamp, l_log entry)
    /\ PyStr.int timestamp = Ok n
    /\ convert_timestamp n = Ok (l_date entry).

(** ** More sessions for the event manager *)

Module Scenes.

(** A session check that fails: the manager is not connected. *)
Definition not_connected (s : list Demo.request) : outcome unit :=
  Raise (OtherError "NotConnectedError").

(** Two ids, both of which the session can fetch. *)
Definition healthy : Demo.script := {|
  Demo.caseids := Ok [1; 2];
  Demo.attributes := fun id =>
    Ok ["id:" +:+ (if id =? 1 then "1" else "2"); "state:open"];
  Demo.history := fun _ => Ok [];
  Demo.log := fun _ => Ok [];
  Demo.add_history_ack := Ok true;
  Demo.set_state_ack := Ok true
|}.

(** A session that answers an attribute line without its separator. *)
Definition malformed : Demo.script := {|
  Demo.caseids := Ok [1];
  Demo.attributes := fun _ => Ok ["id:1"; "state open"];
  Demo.history := fun _ => Ok [];
  Demo.log := fun _ => Ok [];
  Demo.add_history_ack := Ok true;
  Demo.set_state_ack := Ok true
|}.

(** A session that accepts every change and cannot fetch attributes. *)
Definition accepting : Demo.script := {|
  Demo.caseids := Ok [1];
  Demo.attributes := fun _ => Raise (ProtocolError "no such case");
  Demo.history := fun _ => Ok [];
  Demo.log := fun _ => Ok [];
  Demo.add_history_ack := Ok true;
  Demo.set_state_ack := Ok true
|}.

(** A session whose attributes carry the id 7 whatever id was asked for,
    and which cannot fetch a history. *)
Definition renumbered : Demo.script := {|
  Demo.caseids := Ok [1];
  Demo.attributes := fun _ => Ok ["id:7"; "state:open"];
  Demo.history := fun _ => Raise (ProtocolError "no history");
  Demo.log := fun _ => Ok [];
  Demo.add_history_ack := Ok true;
  Demo.set_state_ack := Ok true
|}.

Definition event_7 : Demo.event :=
  Demo.mk_event 7 (<["adm_state" := VStr "open"]> {["id" := VStr "7"]}) [] [].

End Scenes.

(** * Properties *)

(** ** Strings *)

Lemma contains_cut (c : ascii) (s : string) :
  PyStr.contains c s = true <-> exists a b, PyStr.cut c s = Some (a, b).
Proof.
  induction s as [|d r IH]; simpl.
  - split; [discriminate | intros (a & b & E); discriminate].
  - destruct (Ascii.eqb d c); simpl.
    + split; eauto.
    + rewrite IH. split.
      * intros (a & b & E). rewrite E. eauto.
      * intros (a & b & E). destruct (PyStr.cut c r) as [[a' b']|]; eauto; discriminate.
Qed.

Lemma contains_false_cut (c : ascii) (s : string) :
  PyStr.contains c s = false -> PyStr.cut c s = None.
Proof.
  intros Hc. destruct (PyStr.cut c s) as [[a b]|] eqn:E; [|reflexivity].
  assert (PyStr.contains c s = true) by (apply contains_cut; eauto). congruence.
Qed.

Lemma split_1_no_sep (c : ascii) (s : string) :
  PyStr.contains c s = false -> PyStr.unpack2 (PyStr.split_1 c s) = Raise ValueError.
Proof. intros Hc. unfold PyStr.split_1. rewrite (contains_false_cut _ _ Hc). reflexivity. Qed.

Lemma split_1_cut (c : ascii) (s a b : string) :
  PyStr.cut c s = Some (a, b) -> PyStr.unpack2 (PyStr.split_1 c s) = Ok (a, b).
Proof. intros E. unfold PyStr.split_1. rewrite E. reflexivity. Qed.

Lemma split_not_nil (c : ascii) (s : string) : PyStr.split c s <> [].
Proof.
  destruct s as [|d r]; simpl; [discriminate|].
  destruct (Ascii.eqb d c); [discriminate|].
  destruct (PyStr.split c r); discriminate.
Qed.

Lemma join_cons_char (sep : string) (d : ascii) (h : string) (t : list string) :
  PyStr.join sep (String d h :: t) = String d (PyStr.join sep (h :: t)).
Proof. destruct t; reflexivity. Qed.

(** Splitting at every [a] and joining with [b] replaces each [a] by [b]. *)
Lemma join_split_replace (a b : ascii) (s : string) :
  PyStr.join (String b EmptyString) (PyStr.split a s) = AttrSpec.replace_char a b s.
Proof.
  induction s as [|d r IH]; [reflexivity|].
  simpl. destruct (Ascii.eqb d a).
  - destruct (PyStr.split a r) as [|h t] eqn:E.
    + exfalso. exact (split_not_nil _ _ E).
    + rewrite <- IH. reflexivity.
  - destruct (PyStr.split a r) as [|h t] eqn:E.
    + exfalso. exact (split_not_nil _ _ E).
    + rewrite join_cons_char, IH. reflexivity.
Qed.

Lemma replace_char_absent (a b : ascii) (s : string) :
  PyStr.contains a s = false -> AttrSpec.replace_char a b s = s.
Proof.
  induction s as [|d r IH]; simpl; [reflexivity|].
  destruct (Ascii.eqb d a); simpl; [discriminate|].
  intros Hc. rewrite IH by assumption. reflexivity.
Qed.

Example strip_examples :
  PyStr.strip "  manual note " = "manual note"
  /\ PyStr.strip " " = ""
  /\ PyStr.strip (String TAB "a b" +:+ String "010" "") = "a b".
Proof. repeat split. Qed.

Example split_examples :
  PyStr.split_1 ":" "descr:a:b" = ["descr"; "a:b"]
  /\ PyStr.split_1 ":" "descr" = ["descr"]
  /\ PyStr.split_1 ":" "" = [""]
  /\ PyStr.split "-" "a-b--c" = ["a"; "b"; ""; "c"]
  /\ PyStr.join "_" ["a"; "b"; ""; "c"] = "a_b__c".
Proof. repeat split. Qed.

Example int_examples :
  PyStr.int " 12 " = Ok 12
  /\ PyStr.int "-5" = Ok (-5)
  /\ PyStr.int "+1_000" = Ok 1000
  /\ PyStr.int "007" = Ok 7
  /\ PyStr.int (String TAB "1") = Ok 1
  /\ PyStr.int "" = Raise ValueError
  /\ PyStr.int "- 5" = Raise ValueError
  /\ PyStr.int "1__0" = Raise ValueError
  /\ PyStr.int "1_" = Raise ValueError
  /\ PyStr.int "12a" = Raise ValueError
  /\ PyStr.int "0x10" = Raise ValueError.
Proof. repeat split. Qed.

(** The key the parser stores is the trimmed key of the spec module. *)
Lemma normalize_key_trimmed (k : string) :
  EventAdapter.normalize_key k = AttrSpec.trimmed_key k.
Proof.
  unfold EventAdapter.normalize_key, AttrSpec.trimmed_key, AttrSpec.claimed_key.
  destruct (PyStr.contains "-" k) eqn:E.
  - rewrite (join_split_replace "-" "_" k). reflexivity.
  - rewrite replace_char_absent by assumption. reflexivity.
Qed.

(** ** The attribute parser *)

Lemma attr_item_colon (d : gmap string string) (item : string) :
  AttrSpec.has_colon item ->
  EventAdapter.attr_item d item = Ok (AttrSpec.store_line d item).
Proof.
  intros Hc. apply contains_cut in Hc as (k & v & E).
  unfold EventAdapter.attr_item, AttrSpec.store_line, AttrSpec.line_key,
    AttrSpec.key_text, AttrSpec.value_text.
  rewrite (split_1_cut _ _ _ _ E), E. reflexivity.
Qed.

Lemma attr_item_no_colon (d : gmap string string) (item : string) :
  PyStr.contains ":" item = false ->
  EventAdapter.attr_item d item = Raise ValueError.
Proof.
  intros Hc. unfold EventAdapter.attr_item. rewrite split_1_no_sep by assumption. reflexivity.
Qed.

Lemma attr_loop_colon (attrlist : list string) (d : gmap string string) :
  Forall AttrSpec.has_colon attrlist ->
  EventAdapter.attr_loop d attrlist = Ok (foldl AttrSpec.store_line d attrlist).
Proof.
  intros Hall. revert d. induction Hall as [|item rest Hc _ IH]; intros d; simpl.
  - reflexivity.
  - rewrite attr_item_colon by assumption. simpl. apply IH.
Qed.

(** The parser raises [ValueError] or returns: no other exception. *)
Lemma attr_loop_raises_ValueError (attrlist : list string) (d : gmap string string) (e : exn) :
  EventAdapter.attr_loop d attrlist = Raise e -> e = ValueError.
Proof.
  revert d. induction attrlist as [|item rest IH]; intros d; simpl; [discriminate|].
  destruct (PyStr.contains ":" item) eqn:Hc.
  - rewrite attr_item_colon by exact Hc. simpl. apply IH.
  - rewrite attr_item_no_colon by exact Hc. simpl. congruence.
Qed.

Lemma attr_loop_no_colon (attrlist : list string) (d : gmap string string) :
  Exists (fun item => PyStr.contains ":" item = false) attrlist ->
  EventAdapter.attr_loop d attrlist = Raise ValueError.
Proof.
  intros Hex. revert d. induction Hex as [item rest Hc|item rest _ IH]; intros d; simpl.
  - rewrite attr_item_no_colon by assumption. reflexivity.
  - destruct (EventAdapter.attr_item d item) as [d'|e] eqn:E; simpl.
    + apply IH.
    + destruct (PyStr.contains ":" item) eqn:Hc.
      * rewrite attr_item_colon in E by exact Hc. discriminate.
      * rewrite attr_item_no_colon in E by exact Hc. congruence.
Qed.

(** The dictionary that the loop builds: its keys, and what one key holds. *)
Lemma attr_fold_dom (attrlist : list string) (d : gmap string string) :
  dom (foldl AttrSpec.store_line d attrlist)
  = dom d ∪ (list_to_set (AttrSpec.line_key <$> attrlist) : gset string).
Proof.
  revert d. induction attrlist as [|item rest IH]; intros d; simpl.
  - symmetry. apply (right_id_L ∅ (∪)).
  - rewrite IH. unfold AttrSpec.store_line. rewrite dom_insert_L.
    rewrite (comm_L (∪) {[AttrSpec.line_key item]} (dom d)). symmetry. apply (assoc_L (∪)).
Qed.

Lemma attr_fold_other (attrlist : list string) (d : gmap string string) (key : string) :
  Forall (fun item => AttrSpec.line_key item <> key) attrlist ->
  foldl AttrSpec.store_line d attrlist !! key = d !! key.
Proof.
  intros Hall. revert d. induction Hall as [|item rest Hne _ IH]; intros d; simpl.
  - reflexivity.
  - rewrite IH. unfold AttrSpec.store_line. apply lookup_insert_ne. exact Hne.
Qed.

Lemma attr_fold_last (attrlist : list string) (d : gmap string string)
    (i : nat) (item : string) :
  attrlist !! i = Some item ->
  (forall j item', (i < j)%nat -> attrlist !! j = Some item' ->
                   AttrSpec.line_key item' <> AttrSpec.line_key item) ->
  foldl AttrSpec.store_line d attrlist !! AttrSpec.line_key item
  = Some (PyStr.strip (AttrSpec.value_text item)).
Proof.
  revert d i. induction attrlist as [|x rest IH]; intros d i Hi Hlast.
  - discriminate.
  - destruct i as [|i]; simpl in Hi.
    + injection Hi as ->. simpl. rewrite attr_fold_other.
      * unfold AttrSpec.store_line. apply lookup_insert_eq.
      * apply Forall_lookup. intros j item' Hj. apply (Hlast (Datatypes.S j)); [lia|exact Hj].
    + simpl. apply (IH _ i); [exact Hi|].
      intros j item' Hlt Hj. apply (Hlast (Datatypes.S j)); [lia|exact Hj].
Qed.

(** C4 as stated fails on a key with a blank before it: the parser trims the
    key after the rename table, so the line [ state:open] is stored under
    [state], neither under [ state] nor under [adm_state]. *)
Lemma C4_key_is_trimmed_counterexample :
  EventAdapter.attrlist_to_attrdict [" state:open"] = Ok {["state" := "open"]}
  /\ AttrSpec.claimed_attrdict [" state:open"] = {[" state" := "open"]}
  /\ EventAdapter.attrlist_to_attrdict [" state:open"]
     <> Ok (AttrSpec.claimed_attrdict [" state:open"]).
Proof.
  assert (E1 : EventAdapter.attrlist_to_attrdict [" state:open"] = Ok {["state" := "open"]})
    by (vm_compute; reflexivity).
  assert (E2 : AttrSpec.claimed_attrdict [" state:open"] = {[" state" := "open"]})
    by (vm_compute; reflexivity).
  split; [exact E1|]. split; [exact E2|].
  rewrite E1, E2. intros Heq.
  assert (Hm : ({["state" := "open"]} : gmap string string) = {[" state" := "open"]})
    by congruence.
  apply (f_equal (fun m : gmap string string => m !! "state")) in Hm.
  rewrite lookup_singleton_eq, lookup_singleton_ne in Hm by discriminate.
  discriminate.
Qed.

(** C4, amended: for every sequence of lines that each hold a [:], the
    parser returns the map that sends, line after line, the key (hyphens
    turned into underscores, then renamed by the fixed table, then trimmed
    of surrounding white space) to the value trimmed of surrounding white
    space; the lines [id:42], [state:open], [ifindex:3] give exactly
    [{id: 42, adm_state: open, if_index: 3}]. *)
Theorem C4_attribute_parser_normalizes (attrlist : list string) :
  Forall AttrSpec.has_colon attrlist ->
  EventAdapter.attrlist_to_attrdict attrlist = Ok (AttrSpec.trimmed_attrdict attrlist)
  /\ EventAdapter.attrlist_to_attrdict ["id:42"; "state:open"; "ifindex:3"]
     = Ok (<["id" := "42"]> (<["adm_state" := "open"]> {["if_index" := "3"]})).
Proof.
  intros Hall. split.
  - unfold EventAdapter.attrlist_to_attrdict, AttrSpec.trimmed_attrdict.
    rewrite attr_loop_colon by exact Hall. f_equal.
    generalize (∅ : gmap string string).
    induction attrlist as [|item rest IH]; intros d; simpl; [reflexivity|].
    inversion Hall; subst. rewrite IH by assumption.
    unfold AttrSpec.store_line, AttrSpec.line_key. rewrite normalize_key_trimmed. reflexivity.
  - vm_compute. reflexivity.
Qed.

Lemma C4_attribute_parser_normalizes_witness :
  Forall AttrSpec.has_colon ["Neigh-rDNS: r1 "; "state:open"]
  /\ EventAdapter.attrlist_to_attrdict ["Neigh-rDNS: r1 "; "state:open"]
     = Ok (AttrSpec.trimmed_attrdict ["Neigh-rDNS: r1 "; "state:open"]).
Proof.
  assert (H : Forall AttrSpec.has_colon ["Neigh-rDNS: r1 "; "state:open"])
    by (repeat constructor).
  split; [exact H|].
  exact (proj1 (C4_attribute_parser_normalizes _ H)).
Defined.

(** The parser's own account of its keys: one entry for each distinct
    stored key, the last line of a key giving its value. *)
Lemma attr_parser_stored_keys (attrlist : list string) :
  Forall AttrSpec.has_colon attrlist ->
  exists d : gmap string string,
    EventAdapter.attrlist_to_attrdict attrlist = Ok d
    /\ dom d = (list_to_set (AttrSpec.line_key <$> attrlist) : gset string)
    /\ size d = length (remove_dups (AttrSpec.line_key <$> attrlist))
    /\ forall i item,
         attrlist !! i = Some item ->
         (forall j item', (i < j)%nat -> attrlist !! j = Some item' ->
                          AttrSpec.line_key item' <> AttrSpec.line_key item) ->
         d !! AttrSpec.line_key item = Some (PyStr.strip (AttrSpec.value_text item)).
Proof.
  intros Hall. eexists. split.
  { unfold EventAdapter.attrlist_to_attrdict. apply attr_loop_colon. exact Hall. }
  assert (Hdom : dom (foldl AttrSpec.store_line (∅ : gmap string string) attrlist)
                 = (list_to_set (AttrSpec.line_key <$> attrlist) : gset string)).
  { rewrite attr_fold_dom, dom_empty_L. apply (left_id_L ∅ (∪)). }
  split; [exact Hdom|]. split.
  - rewrite <- size_dom, Hdom.
    rewrite <- (size_list_to_set (C := gset string)
                  (remove_dups (AttrSpec.line_key <$> attrlist)))
      by apply NoDup_remove_dups.
    f_equal. apply set_eq. intros x.
    rewrite !elem_of_list_to_set, elem_of_remove_dups. reflexivity.
  - intros i item Hi Hlast. exact (attr_fold_last attrlist ∅ i item Hi Hlast).
Qed.

(** The stored key of a line is its normalized key with the trim. *)
Lemma line_key_normalized (item : string) :
  AttrSpec.line_key item = AttrSpec.normalized_key item.
Proof. unfold AttrSpec.line_key, AttrSpec.normalized_key. apply normalize_key_trimmed. Qed.

Lemma line_keys_normalized (attrlist : list string) :
  AttrSpec.line_key <$> attrlist = AttrSpec.normalized_key <$> attrlist.
Proof.
  induction attrlist as [|item rest IH]; [reflexivity|].
  cbn [fmap list_fmap]. rewrite line_key_normalized. f_equal. exact IH.
Qed.

(** C5 as stated fails when two keys differ by white space only.  With
    the normalization of the spec (hyphens to underscores, then the rename
    table) the lines [a :1] and [a:2] have the two distinct keys [a ] and
    [a]; the parser trims the key before it stores, and returns the one
    entry [{a: 2}]. *)
Lemma C5_untrimmed_keys_counterexample :
  AttrSpec.claimed_keys ["a :1"; "a:2"] = ["a "; "a"]
  /\ length (remove_dups (AttrSpec.claimed_keys ["a :1"; "a:2"])) = 2%nat
  /\ EventAdapter.attrlist_to_attrdict ["a :1"; "a:2"] = Ok {["a" := "2"]}
  /\ size ({["a" := "2"]} : gmap string string) = 1%nat.
Proof.
  split; [reflexivity|]. split; [vm_compute; reflexivity|].
  split; [vm_compute; reflexivity|]. apply map_size_singleton.
Qed.

(** C5, amended: for every sequence of lines that each hold a [:], the
    parser returns a map with exactly one entry for each distinct
    normalized key, where the normalized key of a line is its key with
    hyphens turned into underscores, then renamed by the fixed table, then
    trimmed of surrounding white space; the value under a key is the
    trimmed value of the last line that normalizes to it. *)
Theorem C5_one_entry_per_key_later_wins (attrlist : list string) :
  Forall AttrSpec.has_colon attrlist ->
  exists d : gmap string string,
    EventAdapter.attrlist_to_attrdict attrlist = Ok d
    /\ dom d = (list_to_set (AttrSpec.normalized_key <$> attrlist) : gset string)
    /\ size d = length (remove_dups (AttrSpec.normalized_key <$> attrlist))
    /\ forall i item,
         attrlist !! i = Some item ->
         (forall j item', (i < j)%nat -> attrlist !! j = Some item' ->
                          AttrSpec.normalized_key item' <> AttrSpec.normalized_key item) ->
         d !! AttrSpec.normalized_key item = Some (PyStr.strip (AttrSpec.value_text item)).
Proof.
  intros Hall.
  destruct (attr_parser_stored_keys attrlist Hall) as (d & Hd & Hdom & Hsize & Hlast).
  exists d. rewrite <- line_keys_normalized.
  split; [exact Hd|]. split; [exact Hdom|]. split; [exact Hsize|].
  intros i item Hi Hlater. rewrite <- line_key_normalized.
  apply (Hlast i item Hi). intros j item' Hlt Hj.
  rewrite !line_key_normalized. exact (Hlater j item' Hlt Hj).
Qed.

Lemma C5_one_entry_per_key_later_wins_witness :
  exists d : gmap string string,
    EventAdapter.attrlist_to_attrdict ["a :1"; "state:open"; "a:2"] = Ok d
    /\ size d = 2%nat
    /\ d !! "a" = Some "2".
Proof.
  assert (H : Forall AttrSpec.has_colon ["a :1"; "state:open"; "a:2"])
    by (repeat constructor).
  destruct (C5_one_entry_per_key_later_wins _ H) as (d & Hd & _ & Hsize & Hlast).
  exists d. split; [exact Hd|]. split.
  - rewrite Hsize. vm_compute. reflexivity.
  - apply (Hlast 2%nat "a:2"); [reflexivity|].
    intros j item' Hlt Hj. apply lookup_lt_Some in Hj. simpl in Hj. lia.
Defined.

(** ** The log parser *)

Lemma log_row_no_space (log_list : list LogDict) (row : string) :
  PyStr.contains " " row = false -> LogAdapter.log_row log_list row = Raise ValueError.
Proof.
  intros Hc. unfold LogAdapter.log_row. rewrite split_1_no_sep by assumption. reflexivity.
Qed.

Lemma log_loop_app (pre rest : list string) (log_list : list LogDict) :
  LogAdapter.log_loop log_list (pre ++ rest)
  = do! l <- LogAdapter.log_loop log_list pre; LogAdapter.log_loop l rest.
Proof.
  revert log_list. induction pre as [|row pre IH]; intros log_list; simpl; [reflexivity|].
  destruct (LogAdapter.log_row log_list row) as [l|e]; simpl; [apply IH|reflexivity].
Qed.

Lemma log_loop_no_space (log_data : list string) :
  Exists (fun row => PyStr.contains " " row = false) log_data ->
  raises (LogAdapter.parse_response log_data).
Proof.
  unfold LogAdapter.parse_response. generalize (@nil LogDict).
  intros log_list Hex. revert log_list.
  induction Hex as [row rest Hc|row rest _ IH]; intros log_list; simpl.
  - rewrite log_row_no_space by assumption. exists ValueError. reflexivity.
  - destruct (LogAdapter.log_row log_list row) as [l|e]; simpl.
    + apply IH.
    + exists e. reflexivity.
Qed.

(** C6: an attribute list with a line that holds no [:] makes the Attribute
    Parser fail, and a log block with a line that holds no blank makes the
    Log Parser fail.  The parse error of the spec is Python's [ValueError],
    raised where the two pieces of the split are unpacked: the Attribute
    Parser raises nothing else, and the Log Parser raises it at the line
    without a blank once the lines before it have parsed. *)
Theorem C6_missing_separator_fails (attrlist log_data : list string) :
  (Exists (fun item => PyStr.contains ":" item = false) attrlist ->
   EventAdapter.attrlist_to_attrdict attrlist = Raise ValueError)
  /\ (Exists (fun row => PyStr.contains " " row = false) log_data ->
      raises (LogAdapter.parse_response log_data))
  /\ (forall pre row post l,
        log_data = pre ++ row :: post ->
        PyStr.contains " " row = false ->
        LogAdapter.parse_response pre = Ok l ->
        LogAdapter.parse_response log_data = Raise ValueError).
Proof.
  split; [|split].
  - apply attr_loop_no_colon.
  - apply log_loop_no_space.
  - intros pre row post l -> Hrow Hpre.
    unfold LogAdapter.parse_response in *.
    rewrite log_loop_app, Hpre. simpl.
    rewrite log_row_no_space by exact Hrow. reflexivity.
Qed.

Lemma C6_missing_separator_fails_witness :
  EventAdapter.attrlist_to_attrdict ["id:42"; "state open"] = Raise ValueError
  /\ raises (LogAdapter.parse_response ["1683159556 some log message"; "1683218672"])
  /\ LogAdapter.parse_response ["1683159556 some log message"; "1683218672"]
     = Raise ValueError.
Proof.
  pose proof (C6_missing_separator_fails
                ["id:42"; "state open"]
                ["1683159556 some log message"; "1683218672"]) as (Ha & Hl & Hv).
  split; [|split].
  - apply Ha. apply Exists_cons_tl, Exists_cons_hd. reflexivity.
  - apply Hl. apply Exists_cons_tl, Exists_cons_hd. reflexivity.
  - apply (Hv ["1683159556 some log message"] "1683218672" []
              [mk_log (mk_datetime 2023 5 4 0 19 16) "some log message"]);
      reflexivity.
Defined.

(** ** Timestamps *)

(** The Gregorian calendar repeats every 400 years, 146097 days. *)
Lemma days_before_year_shift (y k : Z) :
  days_before_year (y + 400 * k) = days_before_year y + 146097 * k.
Proof.
  unfold days_before_year.
  replace (y + 400 * k - 1) with (y - 1 + k * 400) by lia.
  replace ((y - 1 + k * 400) / 4) with ((y - 1) / 4 + k * 100)
    by (replace (k * 400) with ((k * 100) * 4) by lia; rewrite Z.div_add by lia; reflexivity).
  replace ((y - 1 + k * 400) / 100) with ((y - 1) / 100 + k * 4)
    by (replace (k * 400) with ((k * 4) * 100) by lia; rewrite Z.div_add by lia; reflexivity).
  rewrite Z.div_add by lia. lia.
Qed.

Lemma is_leap_shift (y k : Z) : is_leap (y + 400 * k) = is_leap y.
Proof.
  unfold is_leap.
  replace ((y + 400 * k) mod 4) with (y mod 4)
    by (replace (400 * k) with ((k * 100) * 4) by lia; rewrite Z.mod_add by lia; reflexivity).
  replace ((y + 400 * k) mod 100) with (y mod 100)
    by (replace (400 * k) with ((k * 4) * 100) by lia; rewrite Z.mod_add by lia; reflexivity).
  replace ((y + 400 * k) mod 400) with (y mod 400)
    by (replace (400 * k) with (k * 400) by lia; rewrite Z.mod_add by lia; reflexivity).
  reflexivity.
Qed.

(** The leap days before a year of the 400, counted from March. *)
Lemma leap_term (yoe : Z) :
  0 <= yoe <= 399 ->
  (yoe - 1) / 4 - (yoe - 1) / 100 + (yoe - 1) / 400 + (if is_leap yoe then 1 else 0)
  = yoe / 4 - yoe / 100.
Proof.
  intros Hy. unfold is_leap.
  destruct (yoe mod 4 =? 0) eqn:E4; destruct (yoe mod 100 =? 0) eqn:E100;
    destruct (yoe mod 400 =? 0) eqn:E400; cbn [andb orb negb];
    rewrite ?Z.eqb_eq, ?Z.eqb_neq in *; Z.div_mod_to_equations; lia.
Qed.

(** The month counted from March, against the table counted from January. *)
Lemma month_facts (mp : Z) :
  0 <= mp <= 11 ->
  let m := if mp <? 10 then mp + 3 else mp - 9 in
  nth (Z.to_nat (m - 1)) month_table 0
  = (153 * mp + 2) / 5 + (if mp <? 10 then 59 else -306)
  /\ (m <=? 2) = negb (mp <? 10)
  /\ (2 <? m) = (mp <? 10).
Proof.
  intros Hmp.
  assert (Hcases : mp = 0 \/ mp = 1 \/ mp = 2 \/ mp = 3 \/ mp = 4 \/ mp = 5 \/ mp = 6
                   \/ mp = 7 \/ mp = 8 \/ mp = 9 \/ mp = 10 \/ mp = 11) by lia.
  destruct Hcases as [E|[E|[E|[E|[E|[E|[E|[E|[E|[E|[E|E]]]]]]]]]]]; subst mp;
    vm_compute; auto.
Qed.

(** The date that [civil_from_days] gives to a day is a date of that day. *)
Lemma days_of_civil_from_days (z : Z) : days_of (civil_from_days z) = z.
Proof.
  unfold civil_from_days.
  set (zz := z + 719468).
  set (era := zz / 146097).
  set (doe := zz - era * 146097).
  assert (Hdoe : 0 <= doe < 146097) by (subst doe era; Z.div_mod_to_equations; lia).
  set (yoe := (doe - doe / 1460 + doe / 36524 - doe / 146096) / 365).
  assert (Hyoe : 0 <= yoe <= 399) by (subst yoe; Z.div_mod_to_equations; lia).
  set (doy := doe - (365 * yoe + yoe / 4 - yoe / 100)).
  assert (Hdoy : 0 <= doy <= 365) by (subst doy yoe; Z.div_mod_to_equations; lia).
  set (mp := (5 * doy + 2) / 153).
  assert (Hmp : 0 <= mp <= 11) by (subst mp; Z.div_mod_to_equations; lia).
  assert (Hz : z = era * 146097 + (365 * yoe + yoe / 4 - yoe / 100) + doy - 719468)
    by (subst doy doe zz; lia).
  assert (Hy1 : yoe / 400 = 0) by (Z.div_mod_to_equations; lia).
  pose proof (leap_term yoe Hyoe) as Hleap.
  destruct (month_facts mp Hmp) as (Htab & Hle & Hlt).
  clearbody mp doy yoe era. clear zz doe Hdoe.
  set (m := if mp <? 10 then mp + 3 else mp - 9) in *.
  unfold days_of, days_before_month.
  rewrite Htab, Hle, Hlt. clear Htab Hle Hlt. clearbody m.
  destruct (mp <? 10) eqn:Hm10; cbn [negb andb].
  - replace (yoe + era * 400 + 0) with (yoe + 400 * era) by lia.
    rewrite days_before_year_shift, is_leap_shift. unfold days_before_year.
    set (t := (153 * mp + 2) / 5) in *. clearbody t.
    destruct (is_leap yoe); lia.
  - replace (yoe + era * 400 + 1) with (yoe + 1 + 400 * era) by lia.
    rewrite days_before_year_shift. unfold days_before_year.
    replace (yoe + 1 - 1) with yoe by lia.
    set (t := (153 * mp + 2) / 5) in *. clearbody t. lia.
Qed.

(** The month and the day of [civil_from_days] are a month and a day. *)
Lemma civil_from_days_ranges (z : Z) :
  let '(_, m, d) := civil_from_days z in 1 <= m <= 12 /\ 1 <= d <= 31.
Proof.
  unfold civil_from_days.
  set (zz := z + 719468).
  set (era := zz / 146097).
  set (doe := zz - era * 146097).
  assert (Hdoe : 0 <= doe < 146097) by (subst doe era; Z.div_mod_to_equations; lia).
  set (yoe := (doe - doe / 1460 + doe / 36524 - doe / 146096) / 365).
  set (doy := doe - (365 * yoe + yoe / 4 - yoe / 100)).
  assert (Hdoy : 0 <= doy <= 365) by (subst doy yoe; Z.div_mod_to_equations; lia).
  clearbody doy. clear Hdoe.
  destruct ((5 * doy + 2) / 153 <? 10) eqn:Hm;
    [apply Z.ltb_lt in Hm | apply Z.ltb_ge in Hm];
    Z.div_mod_to_equations; lia.
Qed.

(** [gmtime] gives a date and a time of day of the timestamp it was given. *)
Lemma timestamp_of_gmtime (timestamp : Z) :
  timestamp_of (gmtime timestamp) = timestamp
  /\ 0 <= hour (gmtime timestamp) < 24
  /\ 0 <= minute (gmtime timestamp) < 60
  /\ 0 <= second (gmtime timestamp) < 60.
Proof.
  unfold gmtime, timestamp_of.
  pose proof (days_of_civil_from_days (timestamp / 86400)) as Hd.
  destruct (civil_from_days (timestamp / 86400)) as [[y m] d].
  cbn [year month day hour minute second].
  rewrite Hd. clear Hd. Z.div_mod_to_equations. lia.
Qed.

Lemma month_table_bound (m : Z) :
  1 <= m <= 12 -> 0 <= nth (Z.to_nat (m - 1)) month_table 0 <= 334.
Proof.
  intros Hm.
  assert (Hc : m = 1 \/ m = 2 \/ m = 3 \/ m = 4 \/ m = 5 \/ m = 6 \/ m = 7
               \/ m = 8 \/ m = 9 \/ m = 10 \/ m = 11 \/ m = 12) by lia.
  destruct Hc as [E|[E|[E|[E|[E|[E|[E|[E|[E|[E|[E|E]]]]]]]]]]]; subst m;
    vm_compute; split; discriminate.
Qed.

(** A date lies within the year it names. *)
Lemma days_of_bounds (y m d : Z) :
  1 <= m <= 12 -> 1 <= d <= 31 ->
  days_before_year y - 719162 <= days_of (y, m, d) <= days_before_year y - 718797.
Proof.
  intros Hm Hd. unfold days_of, days_before_month.
  pose proof (month_table_bound m Hm) as Ht.
  set (t := nth (Z.to_nat (m - 1)) month_table 0) in *. clearbody t.
  destruct ((2 <? m) && is_leap y); lia.
Qed.

Lemma days_before_year_low (y : Z) : y <= 0 -> days_before_year y <= -366.
Proof. intros Hy. unfold days_before_year. Z.div_mod_to_equations. lia. Qed.

Lemma days_before_year_high (y : Z) : 10000 <= y -> 3652059 <= days_before_year y.
Proof. intros Hy. unfold days_before_year. Z.div_mod_to_equations. lia. Qed.

(** The days from 0001-01-01 to 9999-12-31 have a year from 1 to 9999. *)
Lemma civil_from_days_year (z : Z) :
  -719162 <= z <= 2932896 ->
  let '(y, _, _) := civil_from_days z in 1 <= y <= 9999.
Proof.
  intros Hz.
  pose proof (days_of_civil_from_days z) as Hd.
  pose proof (civil_from_days_ranges z) as Hr.
  destruct (civil_from_days z) as [[y m] d]. destruct Hr as (Hm & Hdd).
  pose proof (days_of_bounds y m d Hm Hdd) as Hb.
  destruct (Z_le_gt_dec y 0) as [Hy|Hy].
  - pose proof (days_before_year_low y Hy). lia.
  - destruct (Z_le_gt_dec 10000 y) as [Hy'|Hy'].
    + pose proof (days_before_year_high y Hy'). lia.
    + lia.
Qed.

(** What [convert_timestamp] returns is a date of the years 1 to 9999 that
    counts back to the timestamp. *)
Lemma convert_timestamp_sound (timestamp : Z) (dt : datetime) :
  convert_timestamp timestamp = Ok dt ->
  timestamp_of dt = timestamp
  /\ 1 <= year dt <= 9999 /\ 1 <= month dt <= 12 /\ 1 <= day dt <= 31
  /\ 0 <= hour dt < 24 /\ 0 <= minute dt < 60 /\ 0 <= second dt < 60.
Proof.
  unfold convert_timestamp.
  destruct ((timestamp <? - 2 ^ 63) || _); [discriminate|].
  destruct ((timestamp <? -67768040609740800) || _); [discriminate|].
  destruct ((timestamp <? -62135596800) || _) eqn:H3; [discriminate|].
  intros [= <-].
  apply orb_false_iff in H3 as (Hlo & Hhi).
  apply Z.ltb_ge in Hlo. apply Z.ltb_ge in Hhi.
  destruct (timestamp_of_gmtime timestamp) as (Hts & Hh & Hm & Hs).
  split; [exact Hts|].
  assert (Hdays : -719162 <= timestamp / 86400 <= 2932896)
    by (clear Hts Hh Hm Hs; Z.div_mod_to_equations; lia).
  pose proof (civil_from_days_year _ Hdays) as Hy.
  pose proof (civil_from_days_ranges (timestamp / 86400)) as Hr.
  clear Hts. unfold gmtime in *.
  destruct (civil_from_days (timestamp / 86400)) as [[y m] d].
  cbn [year month day hour minute second] in *.
  destruct Hr as (Hm12 & Hd31). auto 10.
Qed.

(** ** The history parser *)

Example history_example_dates_checked :
  timestamp_of (mk_datetime 2023 3 8 11 2 52) = 1678273372
  /\ timestamp_of (mk_datetime 2023 3 8 11 52 55) = 1678276375
  /\ timestamp_of (mk_datetime 2023 3 8 6 49 32) = 1678258172
  /\ timestamp_of (mk_datetime 2023 3 8 7 39 35) = 1678261175.
Proof. repeat split; reflexivity. Qed.

(** C7 as stated fails: the two entries, their authors and their messages
    are as claimed, the dates are not.  1678273372 and 1678276375 are
    11:02:52 and 11:52:55 on 2023-03-08 in UTC, not 06:49:32 and 07:39:35. *)
Lemma C7_history_example_dates_counterexample :
  HistoryAdapter.parse_response history_example
  <> Ok [ mk_history (mk_datetime 2023 3 8 6 49 32) "monitor"
            "state change embryonic -> open (monitor)";
          mk_history (mk_datetime 2023 3 8 7 39 35) "alice" "manual note" ].
Proof. vm_compute. discriminate. Qed.

(** C7, amended: the history lines of the example give exactly two entries
    in order: a system entry dated 2023-03-08T11:02:52Z with author
    [monitor] and message [state change embryonic -> open (monitor)], and
    a user entry dated 2023-03-08T11:52:55Z with author [alice] and
    message [manual note]. *)
Theorem C7_history_example :
  HistoryAdapter.parse_response history_example
  = Ok [ mk_history (mk_datetime 2023 3 8 11 2 52) "monitor"
           "state change embryonic -> open (monitor)";
         mk_history (mk_datetime 2023 3 8 11 52 55) "alice" "manual note" ].
Proof. vm_compute. reflexivity. Qed.

(** A line that is the marker leaves the list of entries as it is. *)
Lemma history_row_marker (history_list : list HistoryDict) :
  HistoryAdapter.history_row history_list " " = Ok history_list.
Proof. reflexivity. Qed.

(** A line that starts with a blank and is not the marker needs an entry
    to add to. *)
Lemma history_row_continuation_empty (row : string) :
  String.eqb row " " = false ->
  PyStr.startswith " " row = true ->
  HistoryAdapter.history_row [] row = Raise IndexError.
Proof.
  intros Hm Hs. unfold HistoryAdapter.history_row. rewrite Hm, Hs. reflexivity.
Qed.

(** C10 as stated fails for white space other than a blank: a line that
    starts with a TAB is taken as the start of an entry, and [int] skips
    the TAB in front of the timestamp, so the parser returns a result. *)
Lemma C10_tab_line_counterexample :
  PyStr.isspace TAB = true
  /\ first_line [String TAB "1 x"] = Some (String TAB "1 x")
  /\ HistoryAdapter.parse_response [String TAB "1 x"]
     = Ok [ mk_history (mk_datetime 1970 1 1 0 0 1) "x" "" ].
Proof. repeat split; vm_compute; reflexivity. Qed.

(** C10, amended: for every input whose first line other than the marker
    begins with a blank (the character that [startswith] tests for), the
    History Parser raises [IndexError], from indexing the last element of
    the empty list of entries; it returns no result. *)
Theorem C10_continuation_before_entry_raises (history_data : list string) (row : string) :
  first_line history_data = Some row ->
  PyStr.startswith " " row = true ->
  HistoryAdapter.parse_response history_data = Raise IndexError.
Proof.
  unfold HistoryAdapter.parse_response, first_line.
  induction history_data as [|r rest IH]; simpl; [discriminate|].
  destruct (String.eqb r " ") eqn:Hm; simpl.
  - intros Hfind Hstart. apply String.eqb_eq in Hm as ->.
    rewrite history_row_marker. simpl. exact (IH Hfind Hstart).
  - intros [= ->] Hstart.
    rewrite history_row_continuation_empty by assumption. reflexivity.
Qed.

Lemma C10_continuation_before_entry_raises_witness :
  first_line [" "; " manual note "; "1678276375 alice"] = Some " manual note "
  /\ HistoryAdapter.parse_response [" "; " manual note "; "1678276375 alice"]
     = Raise IndexError.
Proof.
  split; [reflexivity|].
  apply (C10_continuation_before_entry_raises _ " manual note "); reflexivity.
Defined.


(** ** The event manager *)

(** Runs a method of the manager up to its calls on the session. *)
Ltac run_manager :=
  unfold create_event_from_id, get_history_for_id, get_log_for_id, get_events,
    change_admin_state_for_id, add_history_entry_for_id, HistoryAdapter_add,
    set_admin_state, _get_event, mbind, checked, rename_exception, call.

Section ManagerProperties.

Context {S : Type} `{Session S} `{EventTypes}.
Variable check_session : S -> outcome unit.
Variable set_history_for_event : Event -> list HistoryEntry -> M S Event.
Variable set_log_for_event : Event -> list LogEntry -> M S Event.

(** [rename_exception] lets no [ProtocolError] through. *)
Lemma rename_exception_no_protocol_error {A} (function : M S A) (m m' : manager S)
    (msg : string) :
  rename_exception function m <> (Raise (ProtocolError msg), m').
Proof.
  unfold rename_exception. destruct (function m) as [[a|e] m1]; [discriminate|].
  destruct e; discriminate.
Qed.

Lemma rename_exception_protocol_error {A} (function : M S A) (m m' : manager S)
    (msg : string) :
  function m = (Raise (ProtocolError msg), m') ->
  rename_exception function m = (Raise (ManagerException (ProtocolError msg)), m').
Proof. intros E. unfold rename_exception. rewrite E. reflexivity. Qed.

(** [create_event_from_id] changes the session only. *)
Lemma create_event_from_id_events (event_id : Z) (m : manager S) :
  events (snd (create_event_from_id check_session event_id m)) = events m.
Proof.
  unfold create_event_from_id, mbind, checked, rename_exception, call, pure.
  destruct (check_session (session m)); [|reflexivity].
  destruct (get_raw_attributes event_id (session m)) as [[attrlist|e] s']; simpl.
  - destruct (EventAdapter.attrlist_to_attrdict attrlist) as [d|]; [|reflexivity].
    destruct (Converters.convert_values d); reflexivity.
  - destruct e; reflexivity.
Qed.

(** A protocol error of the session leaves [create_event_from_id],
    [get_history_for_id] and [get_log_for_id] as a [ManagerException]. *)
Lemma create_event_from_id_protocol_error (event_id : Z) (m : manager S)
    (msg : string) (s' : S) :
  check_session (session m) = Ok tt ->
  get_raw_attributes event_id (session m) = (Raise (ProtocolError msg), s') ->
  create_event_from_id check_session event_id m
  = (Raise (ManagerException (ProtocolError msg)), mk_manager s' (events m)).
Proof.
  intros Hc Hs. run_manager. rewrite Hc, Hs. reflexivity.
Qed.

Lemma get_history_for_id_protocol_error (event_id : Z) (m : manager S)
    (msg : string) (s' : S) :
  check_session (session m) = Ok tt ->
  get_raw_history event_id (session m) = (Raise (ProtocolError msg), s') ->
  get_history_for_id check_session event_id m
  = (Raise (ManagerException (ProtocolError msg)), mk_manager s' (events m)).
Proof.
  intros Hc Hs. run_manager. rewrite Hc, Hs. reflexivity.
Qed.

Lemma get_log_for_id_protocol_error (event_id : Z) (m : manager S)
    (msg : string) (s' : S) :
  check_session (session m) = Ok tt ->
  get_raw_log event_id (session m) = (Raise (ProtocolError msg), s') ->
  get_log_for_id check_session event_id m
  = (Raise (ManagerException (ProtocolError msg)), mk_manager s' (events m)).
Proof.
  intros Hc Hs. run_manager. rewrite Hc, Hs. reflexivity.
Qed.

(** [change_admin_state_for_id] and [add_history_entry_for_id] call the
    session outside [rename_exception]: its protocol error leaves them
    as it is. *)
Lemma change_admin_state_for_id_protocol_error (event_id : Z) (admin_state : AdmState)
    (m : manager S) (event : Event) (msg : string) (s' : S) :
  check_session (session m) = Ok tt ->
  events m !! event_id = Some event ->
  set_state (Event_id event) (AdmState_value admin_state) (session m)
  = (Raise (ProtocolError msg), s') ->
  change_admin_state_for_id check_session set_history_for_event set_log_for_event
    event_id admin_state m
  = (Raise (ProtocolError msg), mk_manager s' (events m)).
Proof.
  intros Hc He Hs. run_manager. rewrite Hc, He. simpl. rewrite Hs. reflexivity.
Qed.

Lemma add_history_entry_for_id_protocol_error (event_id : Z) (message : string)
    (m : manager S) (event : Event) (msg : string) (s' : S) :
  check_session (session m) = Ok tt ->
  events m !! event_id = Some event ->
  add_history (Event_id event) message (session m) = (Raise (ProtocolError msg), s') ->
  add_history_entry_for_id check_session set_history_for_event set_log_for_event
    event_id message m
  = (Raise (ProtocolError msg), mk_manager s' (events m)).
Proof.
  intros Hc He Hs. run_manager. rewrite Hc, He. simpl. rewrite Hs. reflexivity.
Qed.

Lemma get_events_protocol_error (m : manager S) (msg : string) (s' : S) :
  check_session (session m) = Ok tt ->
  get_caseids (session m) = (Raise (ProtocolError msg), s') ->
  get_events check_session m = (Raise (ProtocolError msg), mk_manager s' (events m)).
Proof.
  intros Hc Hs. run_manager. rewrite Hc, Hs. reflexivity.
Qed.

(** *** The loop of [get_events] *)

Lemma for_each_app {A} (pre rest : list A) (body : A -> M S unit) (m : manager S) :
  for_each (pre ++ rest) body m
  = match for_each pre body m with
    | (Ok _, m') => for_each rest body m'
    | (Raise e, m') => (Raise e, m')
    end.
Proof.
  revert m. induction pre as [|x pre IH]; intros m; simpl; [reflexivity|].
  unfold mbind. destruct (body x m) as [[u|e] m1]; [apply IH|reflexivity].
Qed.

Lemma fetch_and_store_ok (event_id : Z) (m m' : manager S) :
  fetch_and_store check_session event_id m = (Ok tt, m') ->
  exists event, events m' = <[event_id := event]> (events m).
Proof.
  unfold fetch_and_store, mbind, store_event.
  pose proof (create_event_from_id_events event_id m) as He.
  destruct (create_event_from_id check_session event_id m) as [[event|e] m1];
    [|discriminate].
  simpl in He. intros [= <-]. exists event. simpl. rewrite He. reflexivity.
Qed.

Lemma fetch_and_store_raise (event_id : Z) (m m' : manager S) (e : exn) :
  create_event_from_id check_session event_id m = (Raise e, m') ->
  fetch_and_store check_session event_id m = (Raise e, m').
Proof. intros E. unfold fetch_and_store, mbind. rewrite E. reflexivity. Qed.

(** After a run of the loop that raised nothing, every id it went over
    is in the store, and the other entries are as they were. *)
Lemma fetch_loop_ok (ids : list Z) (m m' : manager S) :
  for_each ids (fetch_and_store check_session) m = (Ok tt, m') ->
  (forall i, i ∈ ids -> is_Some (events m' !! i))
  /\ (forall j, j ∉ ids -> events m' !! j = events m !! j).
Proof.
  revert m. induction ids as [|id ids IH]; intros m; simpl.
  - intros [= <-]. split; [intros i Hi; inversion Hi|reflexivity].
  - unfold mbind at 1.
    destruct (fetch_and_store check_session id m) as [[u|e] m1] eqn:E; [|discriminate].
    destruct u. apply fetch_and_store_ok in E as (event & Hev).
    intros Hrest. destruct (IH _ Hrest) as (Hin & Hout). split.
    + intros i Hi. destruct (decide (i ∈ ids)) as [Hi'|Hi']; [exact (Hin i Hi')|].
      apply elem_of_cons in Hi as [->|Hi]; [|contradiction].
      rewrite (Hout id Hi'), Hev, lookup_insert_eq. eauto.
    + intros j Hj. apply not_elem_of_cons in Hj as (Hne & Hj).
      rewrite (Hout j Hj), Hev. apply lookup_insert_ne. congruence.
Qed.

Lemma get_events_run (m : manager S) (ids : list Z) (s1 : S) :
  check_session (session m) = Ok tt ->
  get_caseids (session m) = (Ok ids, s1) ->
  get_events check_session m
  = for_each ids (fetch_and_store check_session) (mk_manager s1 (events m)).
Proof.
  intros Hc Hs. run_manager. rewrite Hc, Hs. reflexivity.
Qed.

(** C1, amended: when fetching or parsing the attributes of one id
    fails, [get_events] stops there and the exception leaves the call (a
    [ManagerException] when the session raised a protocol error).  The
    ids before it are in the store, the store holds nothing else that it
    did not hold before, and the manager is left in the state of the
    failed fetch: the ids after it are neither asked for nor stored. *)
Theorem C1_get_events_stops_at_first_failure
    (m m2 m3 : manager S) (pre post : list Z) (event_id : Z) (s1 : S) (e : exn) :
  check_session (session m) = Ok tt ->
  get_caseids (session m) = (Ok (pre ++ event_id :: post), s1) ->
  for_each pre (fetch_and_store check_session) (mk_manager s1 (events m)) = (Ok tt, m2) ->
  create_event_from_id check_session event_id m2 = (Raise e, m3) ->
  get_events check_session m = (Raise e, m3)
  /\ (forall i, i ∈ pre -> is_Some (events m3 !! i))
  /\ (forall j, j ∉ pre -> events m3 !! j = events m !! j)
  /\ (forall msg s',
        check_session (session m2) = Ok tt ->
        get_raw_attributes event_id (session m2) = (Raise (ProtocolError msg), s') ->
        e = ManagerException (ProtocolError msg)).
Proof.
  intros Hc Hids Hpre Hfail.
  assert (Hev : events m3 = events m2).
  { pose proof (create_event_from_id_events event_id m2) as E.
    rewrite Hfail in E. exact E. }
  destruct (fetch_loop_ok _ _ _ Hpre) as (Hin & Hout).
  split; [|split; [|split]].
  - rewrite (get_events_run _ _ _ Hc Hids), for_each_app, Hpre. simpl.
    unfold mbind. rewrite (fetch_and_store_raise _ _ _ _ Hfail). reflexivity.
  - intros i Hi. rewrite Hev. exact (Hin i Hi).
  - intros j Hj. rewrite Hev. exact (Hout j Hj).
  - intros msg s' Hc2 Hs.
    rewrite (create_event_from_id_protocol_error _ _ _ _ Hc2 Hs) in Hfail. congruence.
Qed.

(** C8: when the session answers the change of state with an
    unsuccessful acknowledgment, [change_admin_state_for_id] returns
    [None], raises nothing, and leaves the store, so also the entry of
    that id, as it was; only the session has moved on. *)
Theorem C8_declined_state_change_returns_none
    (event_id : Z) (admin_state : AdmState) (m : manager S) (event : Event) (s' : S) :
  check_session (session m) = Ok tt ->
  events m !! event_id = Some event ->
  set_state (Event_id event) (AdmState_value admin_state) (session m) = (Ok false, s') ->
  exists m',
    change_admin_state_for_id check_session set_history_for_event set_log_for_event
      event_id admin_state m = (Ok None, m')
    /\ events m' = events m
    /\ events m' !! event_id = Some event
    /\ session m' = s'.
Proof.
  intros Hc He Hs. exists (mk_manager s' (events m)).
  run_manager. rewrite Hc, He. simpl. rewrite Hs. simpl. auto.
Qed.

End ManagerProperties.

(** C1 as stated fails: with the ids 1, 2, 3 and a session that cannot
    fetch 2, [get_events] raises a [ManagerException]; 3 is neither asked
    for nor stored. *)
Lemma C1_one_bad_id_counterexample :
  let run := @get_events _ (Demo.scripted Demo.one_bad_id) Demo.types
               Demo.check_session Demo.fresh in
  fst run = Raise (ManagerException (ProtocolError "no such case"))
  /\ session (snd run) = [Demo.ReqCaseids; Demo.ReqAttributes 1; Demo.ReqAttributes 2]
  /\ events (snd run) !! 3 = None.
Proof. vm_compute. repeat split. Qed.

Lemma C1_get_events_stops_at_first_failure_witness :
  exists m3,
    @get_events _ (Demo.scripted Demo.one_bad_id) Demo.types Demo.check_session Demo.fresh
    = (Raise (ManagerException (ProtocolError "no such case")), m3)
    /\ is_Some (events m3 !! 1)
    /\ events m3 !! 3 = None.
Proof.
  eexists.
  pose proof (@C1_get_events_stops_at_first_failure _ (Demo.scripted Demo.one_bad_id)
                Demo.types Demo.check_session Demo.fresh
                (snd (@fetch_and_store _ (Demo.scripted Demo.one_bad_id) Demo.types
                        Demo.check_session 1 (mk_manager [Demo.ReqCaseids] ∅)))
                _ [1] [3] 2 [Demo.ReqCaseids] _
                eq_refl eq_refl eq_refl eq_refl) as (Hrun & Hin & Hout & _).
  split; [exact Hrun|]. split.
  - apply Hin. apply list_elem_of_singleton. reflexivity.
  - rewrite Hout; [reflexivity|].
    intros Hj. apply list_elem_of_singleton in Hj. discriminate.
Defined.

(** C3, failing input: event 1 is in the store and the session has lost
    its connection, so that [set_state] raises a protocol error.
    [change_admin_state_for_id] lets the [ProtocolError] through as it is:
    the call of [set_admin_state] is not wrapped in [rename_exception], as
    the fetches of [create_event_from_id], [get_history_for_id] and
    [get_log_for_id] are. *)
Lemma C3_change_admin_state_leaks_protocol_error :
  fst (@change_admin_state_for_id _ (Demo.scripted Demo.disconnected) Demo.types
         Demo.check_session Demo.set_history_for_event Demo.set_log_for_event
         1 "closed" Demo.manager_1)
  = Raise (ProtocolError "not connected")
  /\ fst (@create_event_from_id _ (Demo.scripted Demo.disconnected) Demo.types
            Demo.check_session 1 Demo.manager_1)
     = Raise (ManagerException (ProtocolError "not connected")).
Proof. vm_compute. split; reflexivity. Qed.

Lemma C8_declined_state_change_returns_none_witness :
  exists m',
    @change_admin_state_for_id _ (Demo.scripted Demo.declining) Demo.types
      Demo.check_session Demo.set_history_for_event Demo.set_log_for_event
      1 "closed" Demo.manager_1 = (Ok None, m')
    /\ events m' = events Demo.manager_1
    /\ events m' !! 1 = Some Demo.event_1
    /\ session m' = [Demo.ReqSetState 1 "closed"].
Proof.
  exact (@C8_declined_state_change_returns_none _ (Demo.scripted Demo.declining)
           Demo.types Demo.check_session Demo.set_history_for_event
           Demo.set_log_for_event 1 "closed" Demo.manager_1 Demo.event_1
           [Demo.ReqSetState 1 "closed"] eq_refl eq_refl eq_refl).
Defined.

(** ** The poll step *)

Section PollProperties.

Context {Sess Case Notif : Type}.
Variable session_case : Z -> Sess -> outcome Case * Sess.
Variable notifier_poll : Notif -> outcome (option Notification) * Notif.

Lemma poll_reconcile (d : dashboard Sess Case Notif) (update : Notification) (n' : Notif) :
  notifier_poll (d_notifier d) = (Ok (Some update), n') ->
  poll session_case notifier_poll d = reconcile session_case update (polled d n').
Proof. intros Hn. unfold poll. rewrite Hn. reflexivity. Qed.

(** A notification for an id that is not in the store is dropped unless
    its kind is [state]. *)
Lemma reconcile_unknown_dropped (d : dashboard Sess Case Notif) (update : Notification) :
  cases d !! n_id update = None ->
  n_type update <> "state" ->
  reconcile session_case update d = (Ok None, d).
Proof.
  intros Hid Hty. unfold reconcile.
  rewrite bool_decide_true by exact Hid.
  apply String.eqb_neq in Hty. rewrite Hty. reflexivity.
Qed.

Lemma scavenge_store (update : Notification) (d d' : dashboard Sess Case Notif)
    (r : outcome (option bool)) :
  scavenge update d = (r, d') -> cases d' = delete (n_id update) (cases d).
Proof.
  unfold scavenge. destruct (case_selected _ _).
  - simpl. destruct (list_remove _ _); intros [= _ <-]; reflexivity.
  - intros [= _ <-]. reflexivity.
Qed.

(** C2, amended: after a [scavenged] notification the id it names is
    not in the event store, whatever the store and the selection held
    and however the step ends; when the id was not in the store to begin
    with, the notification is dropped and the store and the selection
    are left as they were. *)
Theorem C2_scavenged_id_leaves_store
    (d d' : dashboard Sess Case Notif) (update : Notification) (n' : Notif)
    (r : outcome (option bool)) :
  notifier_poll (d_notifier d) = (Ok (Some update), n') ->
  n_type update = "scavenged" ->
  poll session_case notifier_poll d = (r, d') ->
  cases d' !! n_id update = None
  /\ (cases d !! n_id update = None ->
      r = Ok None /\ cases d' = cases d /\ cases_selected d' = cases_selected d).
Proof.
  intros Hn Hty. rewrite (poll_reconcile _ _ _ Hn).
  destruct (cases d !! n_id update) as [c|] eqn:Hid.
  - unfold reconcile. simpl. rewrite bool_decide_false by (rewrite Hid; discriminate).
    unfold dispatch. rewrite Hty. simpl.
    intros Hs. apply scavenge_store in Hs. split; [|discriminate].
    rewrite Hs. apply lookup_delete_eq.
  - rewrite reconcile_unknown_dropped; [|exact Hid|rewrite Hty; discriminate].
    intros [= <- <-]. simpl. auto.
Qed.

(** C9: for a notification whose id is not in the store, the poll step
    drops every kind but [state]: it returns [None] and leaves the
    store, the selection, the session and the record of fetches as they
    were.  The store changes only for the kind [state], and then by the
    one fetch that puts the new case under the id. *)
Theorem C9_unknown_id_only_state_is_accepted
    (d : dashboard Sess Case Notif) (update : Notification) (n' : Notif) :
  notifier_poll (d_notifier d) = (Ok (Some update), n') ->
  cases d !! n_id update = None ->
  (n_type update <> "state" ->
   poll session_case notifier_poll d = (Ok None, polled d n'))
  /\ (forall r d', poll session_case notifier_poll d = (r, d') ->
                   cases d' <> cases d -> n_type update = "state")
  /\ (forall c s', n_type update = "state" ->
        session_case (n_id update) (d_session d) = (Ok c, s') ->
        poll session_case notifier_poll d
        = (Ok (Some true),
           mk_dashboard (<[n_id update := c]> (cases d)) (cases_selected d) s' n'
             (fetched d ++ [n_id update]))).
Proof.
  intros Hn Hid. rewrite (poll_reconcile _ _ _ Hn). split; [|split].
  - intros Hty. apply reconcile_unknown_dropped; assumption.
  - intros r d' Hrun Hch. destruct (decide (n_type update = "state")) as [|Hty]; [assumption|].
    rewrite reconcile_unknown_dropped in Hrun by assumption.
    injection Hrun as _ <-. contradiction.
  - intros c s' Hty Hs. unfold reconcile, polled. simpl.
    rewrite bool_decide_true by exact Hid.
    unfold dispatch, fetch_case. rewrite Hty. simpl. rewrite Hs. reflexivity.
Qed.

End PollProperties.

(** C2 as stated fails for an id that is selected and not in the store: the
    notification is dropped by the guard for unknown ids, and the id stays
    in the selection. *)
Lemma C2_unknown_id_stays_selected_counterexample :
  let run := PollDemo.poll (PollDemo.stale_selection [mk_notification 5 "scavenged" None]) in
  fst run = Ok None
  /\ cases_selected (snd run) = [5]
  /\ 5 ∈ cases_selected (snd run).
Proof.
  vm_compute. split; [reflexivity|]. split; [reflexivity|]. apply list_elem_of_here.
Qed.

(** For an id that is in the store, the selection is tested for
    [update.case] and [update.id] is what is removed: with no auxiliary id
    the selected id stays, with another selected one as auxiliary id the
    removal of an id that is not selected raises. *)
Example scavenged_tests_case_removes_id :
  cases_selected (snd (PollDemo.poll
     (PollDemo.selected_1 [mk_notification 1 "scavenged" None]))) = [1]
  /\ cases_selected (snd (PollDemo.poll
     (PollDemo.selected_1 [mk_notification 1 "scavenged" (Some 1)]))) = []
  /\ fst (PollDemo.poll
     (mk_dashboard ({[1 := 1; 2 := 2]} : gmap Z Z) [2] tt
        [mk_notification 1 "scavenged" (Some 2)] [])) = Raise ValueError.
Proof. vm_compute. repeat split. Qed.

Lemma C2_scavenged_id_leaves_store_witness :
  PollDemo.poll (PollDemo.selected_1 [mk_notification 1 "scavenged" (Some 1)])
  = (Ok (Some true), mk_dashboard ∅ [] tt [] [])
  /\ cases (mk_dashboard (∅ : gmap Z Z) [] tt ([] : list Notification) []) !! 1 = None.
Proof.
  split; [reflexivity|].
  exact (proj1 (C2_scavenged_id_leaves_store PollDemo.session_case PollDemo.notifier_poll
            (PollDemo.selected_1 [mk_notification 1 "scavenged" (Some 1)])
            (mk_dashboard ∅ [] tt [] [])
            (mk_notification 1 "scavenged" (Some 1)) [] (Ok (Some true))
            eq_refl eq_refl eq_refl)).
Defined.

Lemma C9_unknown_id_only_state_is_accepted_witness :
  PollDemo.poll (PollDemo.stale_selection [mk_notification 7 "attr" None])
  = (Ok None, PollDemo.stale_selection [])
  /\ PollDemo.poll (PollDemo.stale_selection [mk_notification 7 "state" None])
     = (Ok (Some true), mk_dashboard {[7 := 7]} [5] tt [] [7]).
Proof.
  split.
  - apply (proj1 (C9_unknown_id_only_state_is_accepted PollDemo.session_case
                    PollDemo.notifier_poll
                    (PollDemo.stale_selection [mk_notification 7 "attr" None])
                    (mk_notification 7 "attr" None) [] eq_refl eq_refl)).
    discriminate.
  - apply (proj2 (proj2 (C9_unknown_id_only_state_is_accepted PollDemo.session_case
                    PollDemo.notifier_poll
                    (PollDemo.stale_selection [mk_notification 7 "state" None])
                    (mk_notification 7 "state" None) [] eq_refl eq_refl)) 7 tt);
      reflexivity.
Defined.

(** * Further properties *)

(** ** Trimming *)

Lemma lstrip_by_no_lead (sp : ascii -> bool) (s : string) :
  no_lead sp (PyStr.lstrip_by sp s).
Proof.
  induction s as [|c r IH]; simpl; [exact I|].
  destruct (sp c) eqn:E; [exact IH|]. simpl. exact E.
Qed.

Lemma no_lead_lstrip_by (sp : ascii -> bool) (s : string) :
  no_lead sp s -> PyStr.lstrip_by sp s = s.
Proof. destruct s as [|c r]; simpl; [reflexivity|]. intros ->. reflexivity. Qed.

Lemma rstrip_by_no_lead (sp : ascii -> bool) (s : string) :
  no_lead sp s -> no_lead sp (PyStr.rstrip_by sp s).
Proof.
  destruct s as [|c r]; simpl; [exact id|]. intros Hc.
  destruct (PyStr.rstrip_by sp r); [rewrite Hc|]; simpl; exact Hc.
Qed.

Lemma rstrip_by_idempotent (sp : ascii -> bool) (s : string) :
  PyStr.rstrip_by sp (PyStr.rstrip_by sp s) = PyStr.rstrip_by sp s.
Proof.
  induction s as [|c r IH]; simpl; [reflexivity|].
  destruct (PyStr.rstrip_by sp r) as [|c' r'] eqn:E.
  - destruct (sp c) eqn:Ec; simpl; [reflexivity|]. rewrite Ec. reflexivity.
  - simpl. simpl in IH. rewrite IH. reflexivity.
Qed.

(** Trimming what was trimmed changes nothing. *)
Lemma strip_idempotent (s : string) : PyStr.strip (PyStr.strip s) = PyStr.strip s.
Proof.
  unfold PyStr.strip.
  rewrite (no_lead_lstrip_by PyStr.isspace (PyStr.rstrip_by _ _)).
  - apply rstrip_by_idempotent.
  - apply rstrip_by_no_lead, lstrip_by_no_lead.
Qed.

Lemma lstrip_by_contains (sp : ascii -> bool) (c : ascii) (s : string) :
  PyStr.contains c s = false -> PyStr.contains c (PyStr.lstrip_by sp s) = false.
Proof.
  induction s as [|d r IH]; simpl; [reflexivity|].
  intros Hc. apply orb_false_iff in Hc as (Hd & Hr).
  destruct (sp d); [exact (IH Hr)|]. simpl. rewrite Hd, Hr. reflexivity.
Qed.

Lemma rstrip_by_contains (sp : ascii -> bool) (c : ascii) (s : string) :
  PyStr.contains c s = false -> PyStr.contains c (PyStr.rstrip_by sp s) = false.
Proof.
  induction s as [|d r IH]; simpl; [reflexivity|].
  intros Hc. apply orb_false_iff in Hc as (Hd & Hr). specialize (IH Hr).
  destruct (PyStr.rstrip_by sp r) as [|d' r'].
  - destruct (sp d); simpl; [reflexivity|]. rewrite Hd. reflexivity.
  - simpl. simpl in IH. rewrite Hd, IH. reflexivity.
Qed.

Lemma strip_contains (c : ascii) (s : string) :
  PyStr.contains c s = false -> PyStr.contains c (PyStr.strip s) = false.
Proof. intros Hc. apply rstrip_by_contains, lstrip_by_contains, Hc. Qed.

(** ** More on the attribute parser *)

Lemma replace_char_gone (a b : ascii) (s : string) :
  a <> b -> PyStr.contains a (AttrSpec.replace_char a b s) = false.
Proof.
  intros Hab. induction s as [|c r IH]; simpl; [reflexivity|]. rewrite IH.
  destruct (Ascii.eqb c a) eqn:E.
  - apply orb_false_iff. split; [|reflexivity]. apply Ascii.eqb_neq. congruence.
  - rewrite E. reflexivity.
Qed.

Lemma FIELD_MAP_get_no_hyphen (k : string) :
  PyStr.contains "-" k = false ->
  PyStr.contains "-" (EventAdapter.FIELD_MAP_get k) = false.
Proof.
  intros Hk. unfold EventAdapter.FIELD_MAP_get.
  destruct ((list_to_map EventAdapter.FIELD_MAP : gmap string string) !! k) as [v|] eqn:E;
    [|exact Hk].
  apply elem_of_list_to_map_2 in E. simpl.
  assert (Hall : Forall (fun kv : string * string => PyStr.contains "-" kv.2 = false)
                   EventAdapter.FIELD_MAP) by (repeat constructor).
  rewrite Forall_forall in Hall. exact (Hall _ E).
Qed.

(** A stored key is trimmed and holds no hyphen. *)
Lemma normalize_key_normal (k : string) :
  PyStr.strip (EventAdapter.normalize_key k) = EventAdapter.normalize_key k
  /\ PyStr.contains "-" (EventAdapter.normalize_key k) = false.
Proof.
  rewrite normalize_key_trimmed. unfold AttrSpec.trimmed_key, AttrSpec.claimed_key.
  split; [apply strip_idempotent|].
  apply strip_contains, FIELD_MAP_get_no_hyphen, replace_char_gone. discriminate.
Qed.

Lemma attr_item_ok (d d' : gmap string string) (item : string) :
  EventAdapter.attr_item d item = Ok d' ->
  AttrSpec.has_colon item /\ d' = AttrSpec.store_line d item.
Proof.
  intros E. destruct (PyStr.contains ":" item) eqn:Hc.
  - rewrite attr_item_colon in E by exact Hc. split; [exact Hc|congruence].
  - rewrite attr_item_no_colon in E by exact Hc. discriminate.
Qed.

(** The parser returns only when every line holds a [:]. *)
Lemma attr_loop_ok (attrlist : list string) (d d' : gmap string string) :
  EventAdapter.attr_loop d attrlist = Ok d' ->
  Forall AttrSpec.has_colon attrlist /\ d' = foldl AttrSpec.store_line d attrlist.
Proof.
  revert d. induction attrlist as [|item rest IH]; intros d; simpl.
  - intros [= <-]. split; [constructor|reflexivity].
  - destruct (EventAdapter.attr_item d item) as [d1|e] eqn:E; simpl; [|discriminate].
    apply attr_item_ok in E as (Hc & ->). intros Hrest.
    destruct (IH _ Hrest) as (Hall & ->). split; [constructor; assumption|reflexivity].
Qed.

Lemma attr_fold_invariant (P : string -> string -> Prop) (attrlist : list string)
    (d : gmap string string) :
  map_Forall P d ->
  (forall item, P (AttrSpec.line_key item) (PyStr.strip (AttrSpec.value_text item))) ->
  map_Forall P (foldl AttrSpec.store_line d attrlist).
Proof.
  intros Hd Hline. revert d Hd.
  induction attrlist as [|item rest IH]; intros d Hd; simpl; [exact Hd|].
  apply IH. unfold AttrSpec.store_line. apply map_Forall_insert_2; [apply Hline|exact Hd].
Qed.

(** X1: whatever lines it is given, a dictionary that the Attribute
    Parser returns is in normal form: no key and no value has white space
    around it, and no key holds a hyphen. *)
Theorem X1_attrdict_is_normalized (attrlist : list string) (d : gmap string string)
    (k v : string) :
  EventAdapter.attrlist_to_attrdict attrlist = Ok d ->
  d !! k = Some v ->
  PyStr.strip k = k /\ PyStr.strip v = v /\ PyStr.contains "-" k = false.
Proof.
  intros Hd Hk. apply attr_loop_ok in Hd as (_ & ->).
  refine (attr_fold_invariant
            (fun k v => PyStr.strip k = k /\ PyStr.strip v = v
                        /\ PyStr.contains "-" k = false)
            attrlist ∅ _ _ k v Hk).
  - apply map_Forall_empty.
  - intros item. unfold AttrSpec.line_key.
    destruct (normalize_key_normal (AttrSpec.key_text item)) as (H1 & H2).
    split; [exact H1|]. split; [apply strip_idempotent|exact H2].
Qed.

Lemma X1_attrdict_is_normalized_witness :
  PyStr.strip "Neigh_rDNS" = "Neigh_rDNS" /\ PyStr.strip "r1.example.org" = "r1.example.org"
  /\ PyStr.contains "-" "Neigh_rDNS" = false.
Proof.
  apply (X1_attrdict_is_normalized ["id: 7"; " Neigh-rDNS :  r1.example.org "]
           (<["Neigh_rDNS" := "r1.example.org"]> {["id" := "7"]}));
    vm_compute; reflexivity.
Defined.

Lemma attr_fold_member (attrlist : list string) (item : string) :
  NoDup (AttrSpec.line_key <$> attrlist) ->
  item ∈ attrlist ->
  foldl AttrSpec.store_line ∅ attrlist !! AttrSpec.line_key item
  = Some (PyStr.strip (AttrSpec.value_text item)).
Proof.
  intros Hnd Hin. apply list_elem_of_lookup in Hin as (i & Hi).
  apply (attr_fold_last attrlist ∅ i item Hi).
  intros j item' Hlt Hj Heq.
  assert (i = j); [|lia].
  apply (NoDup_lookup _ i j (AttrSpec.line_key item) Hnd);
    rewrite list_lookup_fmap; [rewrite Hi|rewrite Hj; simpl; rewrite Heq]; reflexivity.
Qed.

(** X2: when the lines all hold a [:] and no two of them have the same
    stored key, the order of the lines does not matter: every permutation
    of them parses to the same dictionary. *)
Theorem X2_attrdict_order_irrelevant (attrlist attrlist' : list string) :
  Forall AttrSpec.has_colon attrlist ->
  NoDup (AttrSpec.line_key <$> attrlist) ->
  attrlist ≡ₚ attrlist' ->
  EventAdapter.attrlist_to_attrdict attrlist'
  = EventAdapter.attrlist_to_attrdict attrlist.
Proof.
  intros Hall Hnd Hperm.
  assert (Hall' : Forall AttrSpec.has_colon attrlist') by (rewrite <- Hperm; exact Hall).
  assert (Hnd' : NoDup (AttrSpec.line_key <$> attrlist')) by (rewrite <- Hperm; exact Hnd).
  unfold EventAdapter.attrlist_to_attrdict. rewrite !attr_loop_colon by assumption.
  f_equal. apply map_eq. intros key.
  destruct (decide (key ∈ AttrSpec.line_key <$> attrlist)) as [Hin|Hout].
  - apply list_elem_of_fmap in Hin as (item & -> & Hin).
    rewrite (attr_fold_member attrlist item Hnd Hin).
    apply attr_fold_member; [exact Hnd'|]. rewrite <- Hperm. exact Hin.
  - assert (Hout' : key ∉ AttrSpec.line_key <$> attrlist') by (rewrite <- Hperm; exact Hout).
    transitivity (@None string); [|symmetry]; apply not_elem_of_dom;
      rewrite attr_fold_dom, dom_empty_L, (left_id_L ∅ (∪)), elem_of_list_to_set;
      assumption.
Qed.

Lemma X2_attrdict_order_irrelevant_witness :
  EventAdapter.attrlist_to_attrdict ["state:open"; "id:7"; "ifindex:3"]
  = EventAdapter.attrlist_to_attrdict ["id:7"; "ifindex:3"; "state:open"].
Proof.
  apply X2_attrdict_order_irrelevant.
  - repeat constructor.
  - apply (bool_decide_unpack _). vm_compute. reflexivity.
  - symmetry. exact (Permutation_middle ["id:7"; "ifindex:3"] [] "state:open").
Defined.

(** ** [convert_values] *)

(** X3: [convert_values] keeps the keys of the dictionary and touches
    only [ac_down]: every other value stays the string it was, and
    [ac_down], when it is there, becomes the integer it spells.  It fails,
    with a [ValueError], exactly when [ac_down] is there and does not spell
    an integer. *)
Theorem X3_convert_values_only_ac_down (attrdict : gmap string string) :
  (forall d', Converters.convert_values attrdict = Ok d' ->
     dom d' = dom attrdict
     /\ (forall k, k <> "ac_down" -> d' !! k = VStr <$> attrdict !! k)
     /\ (forall s, attrdict !! "ac_down" = Some s ->
           exists n, PyStr.int s = Ok n /\ d' !! "ac_down" = Some (VInt n)))
  /\ (forall e, Converters.convert_values attrdict = Raise e ->
        e = ValueError
        /\ exists s, attrdict !! "ac_down" = Some s /\ PyStr.int s = Raise ValueError).
Proof.
  unfold Converters.convert_values, Converters.FIELD_VALUE_CONVERTER_MAP.
  cbn [Converters.convert_loop]. rewrite lookup_fmap.
  destruct (attrdict !! "ac_down") as [s|] eqn:Hac; cbn [fmap option_fmap option_map].
  - unfold Converters.int.
    assert (Hint : PyStr.int s = Raise ValueError \/ exists n, PyStr.int s = Ok n).
    { unfold PyStr.int. destruct (match _ with EmptyString => _ | String _ _ => _ end);
        eauto. }
    destruct Hint as [Hint|(n & Hint)]; rewrite Hint; cbn [obind]; split.
    + discriminate.
    + intros e [= <-]. eauto.
    + intros d' [= <-]. split; [|split].
      * rewrite dom_insert_L, dom_fmap_L.
        assert ("ac_down" ∈ dom attrdict) by (apply elem_of_dom; eauto).
        apply set_eq. intros x. rewrite elem_of_union, elem_of_singleton.
        split; [intros [->|]; assumption|auto].
      * intros k Hk. rewrite lookup_insert_ne by congruence. apply lookup_fmap.
      * intros s' [= <-]. exists n. split; [exact Hint|apply lookup_insert_eq].
    + discriminate.
  - split; [|discriminate].
    intros d' [= <-]. split; [apply dom_fmap_L|]. split.
    + intros k _. apply lookup_fmap.
    + discriminate.
Qed.

Lemma X3_convert_values_only_ac_down_witness :
  exists n,
    PyStr.int " 12 " = Ok n
    /\ (<["ac_down" := VInt 12]> (VStr <$> {["ac_down" := " 12 "]}) : gmap string value)
       !! "ac_down" = Some (VInt n).
Proof.
  exact (proj2 (proj2 (proj1 (X3_convert_values_only_ac_down {["ac_down" := " 12 "]})
                         _ eq_refl)) " 12 " eq_refl).
Defined.

(** ** More on the log parser *)

Lemma log_row_shift (log_list : list LogDict) (row : string) :
  LogAdapter.log_row log_list row
  = do! es <- LogAdapter.log_row [] row; Ok (log_list ++ es).
Proof.
  unfold LogAdapter.log_row.
  destruct (PyStr.unpack2 (PyStr.split_1 " " row)) as [[timestamp log]|e]; [|reflexivity].
  cbn [obind]. destruct (PyStr.int timestamp) as [n|e]; [|reflexivity].
  cbn [obind]. destruct (convert_timestamp n) as [dt|e]; reflexivity.
Qed.

Lemma log_loop_shift (log_data : list string) (log_list : list LogDict) :
  LogAdapter.log_loop log_list log_data
  = do! es <- LogAdapter.log_loop [] log_data; Ok (log_list ++ es).
Proof.
  revert log_list. induction log_data as [|row rest IH]; intros log_list; simpl.
  - rewrite app_nil_r. reflexivity.
  - rewrite (log_row_shift log_list row).
    destruct (LogAdapter.log_row [] row) as [r|e]; [|reflexivity].
    cbn [obind]. rewrite (IH (log_list ++ r)), (IH r).
    destruct (LogAdapter.log_loop [] rest) as [es|e]; [|reflexivity].
    cbn [obind]. rewrite app_assoc. reflexivity.
Qed.

Lemma log_row_line (row : string) (es : list LogDict) :
  LogAdapter.log_row [] row = Ok es <-> exists entry, log_line row entry /\ es = [entry].
Proof.
  unfold LogAdapter.log_row, log_line, PyStr.split_1. split.
  - destruct (PyStr.cut " " row) as [[timestamp log]|]; [|discriminate].
    cbn [PyStr.unpack2 obind]. destruct (PyStr.int timestamp) as [n|] eqn:Hn; [|discriminate].
    cbn [obind]. destruct (convert_timestamp n) as [dt|] eqn:Hdt; [|discriminate].
    intros [= <-]. exists (mk_log dt log). split; [|reflexivity].
    exists timestamp, n. auto.
  - intros (entry & (timestamp & n & Hcut & Hn & Hdt) & ->).
    rewrite Hcut. cbn [PyStr.unpack2 obind]. rewrite Hn. cbn [obind]. rewrite Hdt.
    destruct entry. reflexivity.
Qed.

(** X4: the Log Parser returns exactly when every line splits at its
    first blank into an integer, within the range of dates, and a message:
    it then gives one entry for each line, in the order of the lines, with
    the date of that integer and the message as it stands after the blank,
    not trimmed. *)
Theorem X4_log_parser_line_by_line (log_data : list string) (log_list : list LogDict) :
  LogAdapter.parse_response log_data = Ok log_list <-> Forall2 log_line log_data log_list.
Proof.
  unfold LogAdapter.parse_response. revert log_list.
  induction log_data as [|row rest IH]; intros log_list; simpl.
  - split; [intros [= <-]; constructor|]. intros H. inversion H. reflexivity.
  - destruct (LogAdapter.log_row [] row) as [r|e] eqn:Hrow; cbn [obind].
    + apply log_row_line in Hrow as (entry & Hline & ->).
      rewrite log_loop_shift.
      destruct (LogAdapter.log_loop [] rest) as [es|e] eqn:Hrest; cbn [obind].
      * split.
        -- intros [= <-]. constructor; [exact Hline|]. apply IH. reflexivity.
        -- intros H. inversion H as [|? e' ? es' Hl Hr]; subst.
           apply IH in Hr. injection Hr as <-.
           destruct Hline as (t1 & n1 & Hc1 & Hn1 & Hd1).
           destruct Hl as (t2 & n2 & Hc2 & Hn2 & Hd2).
           rewrite Hc1 in Hc2. injection Hc2 as <- Hlog.
           rewrite Hn1 in Hn2. injection Hn2 as <-.
           rewrite Hd1 in Hd2. injection Hd2 as Hdate.
           destruct entry, e'. simpl in *. subst. reflexivity.
      * split; [discriminate|]. intros H. inversion H as [|? e' ? es' Hl Hr]; subst.
        apply IH in Hr. discriminate.
    + split; [discriminate|]. intros H. inversion H as [|? e' ? es' Hl Hr]; subst.
      assert (Hok : LogAdapter.log_row [] row = Ok [e'])
        by (apply log_row_line; eauto).
      rewrite Hok in Hrow. discriminate.
Qed.

Lemma X4_log_parser_line_by_line_witness :
  Forall2 log_line ["1683159556 some  log message "; "1683218672 x"]
    [ mk_log (mk_datetime 2023 5 4 0 19 16) "some  log message ";
      mk_log (mk_datetime 2023 5 4 16 44 32) "x" ].
Proof.
  apply (proj1 (X4_log_parser_line_by_line _ _)). vm_compute. reflexivity.
Defined.

(** X5: the Log Parser reads a block line by line with nothing carried
    over: parsing two blocks one after the other is parsing each and
    joining the results, and the first block that fails decides the
    exception. *)
Theorem X5_log_parser_concatenation (block1 block2 : list string) :
  LogAdapter.parse_response (block1 ++ block2)
  = do! l1 <- LogAdapter.parse_response block1;
    do! l2 <- LogAdapter.parse_response block2;
    Ok (l1 ++ l2).
Proof.
  unfold LogAdapter.parse_response. rewrite log_loop_app.
  destruct (LogAdapter.log_loop [] block1) as [l1|e]; [|reflexivity].
  cbn [obind]. apply log_loop_shift.
Qed.

(** ** More on the history parser *)

Lemma history_row_cases (history_list : list HistoryDict) (row : string) :
  HistoryAdapter.history_row history_list row
  = if String.eqb row " " then Ok history_list
    else if PyStr.startswith " " row
         then HistoryAdapter.append_to_last_log history_list (PyStr.strip row +:+ " ")
         else do! n <- new_entry row; Ok (history_list ++ [n]).
Proof.
  unfold HistoryAdapter.history_row, new_entry.
  destruct (String.eqb row " "); [reflexivity|].
  destruct (PyStr.startswith " " row); [reflexivity|].
  destruct (PyStr.unpack2 (PyStr.split_1 " " row)) as [[timestamp body]|e]; [|reflexivity].
  cbn [obind]. destruct (PyStr.int timestamp) as [ts|e]; [|reflexivity].
  cbn [obind]. destruct (convert_timestamp ts) as [dt|e]; [|reflexivity].
  cbn [obind]. destruct (PyStr.contains " " body); reflexivity.
Qed.

Lemma append_to_last_log_snoc (l0 : list HistoryDict) (e : HistoryDict) (text : string) :
  HistoryAdapter.append_to_last_log (l0 ++ [e]) text
  = Ok (l0 ++ [mk_history (h_date e) (h_user e) (h_log e +:+ text)]).
Proof.
  unfold HistoryAdapter.append_to_last_log. rewrite last_snoc. f_equal.
  rewrite length_app. simpl.
  replace (Nat.pred (length l0 + 1)) with (length l0 + 0)%nat by lia.
  rewrite insert_app_r. reflexivity.
Qed.

Lemma history_loop_app (pre rest : list string) (history_list : list HistoryDict) :
  HistoryAdapter.history_loop history_list (pre ++ rest)
  = do! l <- HistoryAdapter.history_loop history_list pre;
    HistoryAdapter.history_loop l rest.
Proof.
  revert history_list. induction pre as [|row pre IH]; intros history_list; simpl;
    [reflexivity|].
  destruct (HistoryAdapter.history_row history_list row) as [l|e]; simpl;
    [apply IH|reflexivity].
Qed.

(** Once there is an entry, the entries before the last one are out of
    the parser's reach. *)
Lemma history_loop_prefix (history_data : list string) (l l0 : list HistoryDict)
    (e : HistoryDict) :
  HistoryAdapter.history_loop (l ++ l0 ++ [e]) history_data
  = do! r <- HistoryAdapter.history_loop (l0 ++ [e]) history_data; Ok (l ++ r).
Proof.
  revert l0 e. induction history_data as [|row rest IH]; intros l0 e; [reflexivity|].
  cbn [HistoryAdapter.history_loop]. rewrite !history_row_cases.
  destruct (String.eqb row " "); cbn [obind]; [apply IH|].
  destruct (PyStr.startswith " " row).
  - rewrite (app_assoc l l0 [e]), !append_to_last_log_snoc. cbn [obind].
    rewrite <- app_assoc. apply IH.
  - destruct (new_entry row) as [n|err]; [|reflexivity]. cbn [obind].
    rewrite <- !app_assoc. rewrite (app_assoc l0 [e] [n]). apply IH.
Qed.

(** X6: the end-of-entry marker carries nothing: a block parses to the
    same result, or fails with the same exception, as the block without its
    marker lines. *)
Theorem X6_history_markers_are_ignored (history_data : list string) :
  HistoryAdapter.parse_response (without_markers history_data)
  = HistoryAdapter.parse_response history_data.
Proof.
  unfold HistoryAdapter.parse_response, without_markers. f_equal.
  generalize (@nil HistoryDict).
  induction history_data as [|row rest IH]; intros l; [reflexivity|].
  cbn [List.filter HistoryAdapter.history_loop].
  destruct (String.eqb row " ") eqn:Hm; cbn [negb].
  - apply String.eqb_eq in Hm as ->. rewrite history_row_marker. cbn [obind]. apply IH.
  - cbn [HistoryAdapter.history_loop].
    destruct (HistoryAdapter.history_row l row) as [l'|e]; cbn [obind];
      [apply IH|reflexivity].
Qed.

Lemma history_row_length (l l' : list HistoryDict) (row : string) :
  HistoryAdapter.history_row l row = Ok l' ->
  length l' = (length l + (if entry_start row then 1 else 0))%nat.
Proof.
  rewrite history_row_cases. unfold entry_start.
  destruct (String.eqb row " ") eqn:Hm.
  - apply String.eqb_eq in Hm as ->. intros [= <-]. simpl. lia.
  - destruct (PyStr.startswith " " row); cbn [negb].
    + unfold HistoryAdapter.append_to_last_log. destruct (last l); [|discriminate].
      intros [= <-]. rewrite length_insert. lia.
    + destruct (new_entry row) as [n|]; [|discriminate]. cbn [obind].
      intros [= <-]. rewrite length_app. reflexivity.
Qed.

(** X7: when the History Parser returns, it has made one entry for each
    line that does not start with a blank, and none for the others:
    continuation lines and markers never add an entry. *)
Theorem X7_history_one_entry_per_start_line (history_data : list string)
    (history_list : list HistoryDict) :
  HistoryAdapter.parse_response history_data = Ok history_list ->
  length history_list = length (List.filter entry_start history_data).
Proof.
  unfold HistoryAdapter.parse_response.
  destruct (HistoryAdapter.history_loop [] history_data) as [l|] eqn:Hloop; [|discriminate].
  cbn [obind]. intros [= <-]. rewrite length_fmap.
  change (length l = (length (@nil HistoryDict)
                      + length (List.filter entry_start history_data))%nat).
  revert l Hloop. generalize (@nil HistoryDict).
  induction history_data as [|row rest IH]; intros l0 l.
  - intros [= <-]. simpl. lia.
  - cbn [HistoryAdapter.history_loop List.filter].
    destruct (HistoryAdapter.history_row l0 row) as [l1|] eqn:Hrow; [|discriminate].
    cbn [obind]. intros Hrest. rewrite (IH _ _ Hrest), (history_row_length _ _ _ Hrow).
    destruct (entry_start row); simpl; lia.
Qed.

Lemma X7_history_one_entry_per_start_line_witness :
  length [ mk_history (mk_datetime 2023 3 8 11 2 52) "monitor"
             "state change embryonic -> open (monitor)";
           mk_history (mk_datetime 2023 3 8 11 52 55) "alice" "manual note" ]
  = length (List.filter entry_start history_example).
Proof.
  apply (X7_history_one_entry_per_start_line history_example). vm_compute. reflexivity.
Defined.

Lemma new_entry_ok (row : string) (n : HistoryDict) :
  new_entry row = Ok n ->
  author_ok (h_user n) /\ exists ts, convert_timestamp ts = Ok (h_date n).
Proof.
  unfold new_entry, author_ok.
  destruct (PyStr.unpack2 (PyStr.split_1 " " row)) as [[timestamp body]|]; [|discriminate].
  cbn [obind]. destruct (PyStr.int timestamp) as [ts|]; [|discriminate].
  cbn [obind]. destruct (convert_timestamp ts) as [dt|] eqn:Hdt; [|discriminate].
  cbn [obind]. destruct (PyStr.contains " " body) eqn:Hb; intros [= <-]; simpl; eauto.
Qed.

Lemma history_row_invariant (P : HistoryDict -> Prop) (l l' : list HistoryDict)
    (row : string) :
  (forall n, new_entry row = Ok n -> P n) ->
  (forall e text, P e -> P (mk_history (h_date e) (h_user e) text)) ->
  HistoryAdapter.history_row l row = Ok l' ->
  Forall P l -> Forall P l'.
Proof.
  intros Hnew Hlog. rewrite history_row_cases.
  destruct (String.eqb row " "); [intros [= <-]; exact id|].
  destruct (PyStr.startswith " " row).
  - unfold HistoryAdapter.append_to_last_log.
    destruct (last l) as [e|] eqn:Hlast; [|discriminate].
    intros [= <-] Hall. apply Forall_insert; [exact Hall|].
    apply Hlog. rewrite Forall_forall in Hall. apply Hall.
    apply last_Some in Hlast as (l0 & ->). apply elem_of_app. right.
    apply list_elem_of_singleton. reflexivity.
  - destruct (new_entry row) as [n|] eqn:Hn; [|discriminate]. cbn [obind].
    intros [= <-] Hall. apply Forall_app. split; [exact Hall|].
    constructor; [exact (Hnew n eq_refl)|constructor].
Qed.

(** X8: every entry that the History Parser returns has as author the
    system user [monitor] or a word without a blank, has a message with no
    white space around it, and has a date that is a UTC date of the years 1
    to 9999, made from an integer timestamp. *)
Theorem X8_history_entries_are_well_formed (history_data : list string)
    (history_list : list HistoryDict) (entry : HistoryDict) :
  HistoryAdapter.parse_response history_data = Ok history_list ->
  entry ∈ history_list ->
  author_ok (h_user entry)
  /\ PyStr.strip (h_log entry) = h_log entry
  /\ exists ts, convert_timestamp ts = Ok (h_date entry)
                /\ 1 <= year (h_date entry) <= 9999.
Proof.
  unfold HistoryAdapter.parse_response.
  destruct (HistoryAdapter.history_loop [] history_data) as [l|] eqn:Hloop; [|discriminate].
  cbn [obind]. intros [= <-] Hin.
  apply list_elem_of_fmap in Hin as (e & -> & Hin). simpl.
  assert (Hall : Forall (fun e => author_ok (h_user e)
                                  /\ exists ts, convert_timestamp ts = Ok (h_date e)) l).
  { clear Hin. revert l Hloop.
    assert (Hnil : Forall (fun e => author_ok (h_user e)
                     /\ exists ts, convert_timestamp ts = Ok (h_date e)) (@nil HistoryDict))
      by constructor.
    revert Hnil. generalize (@nil HistoryDict).
    induction history_data as [|row rest IH]; intros l0 Hl0 l.
    - intros [= <-]. exact Hl0.
    - cbn [HistoryAdapter.history_loop].
      destruct (HistoryAdapter.history_row l0 row) as [l1|] eqn:Hrow; [|discriminate].
      cbn [obind]. apply IH.
      refine (history_row_invariant _ _ _ _ _ _ Hrow Hl0).
      + intros n Hn. exact (new_entry_ok _ _ Hn).
      + intros e' text He'. exact He'. }
  rewrite Forall_forall in Hall. destruct (Hall _ Hin) as (Hu & ts & Hts).
  split; [exact Hu|]. split; [apply strip_idempotent|].
  exists ts. split; [exact Hts|]. apply (convert_timestamp_sound _ _ Hts).
Qed.

Lemma X8_history_entries_are_well_formed_witness :
  author_ok "alice" /\ PyStr.strip "manual note" = "manual note"
  /\ exists ts, convert_timestamp ts = Ok (mk_datetime 2023 3 8 11 52 55)
                /\ 1 <= 2023 <= 9999.
Proof.
  apply (X8_history_entries_are_well_formed history_example
           [ mk_history (mk_datetime 2023 3 8 11 2 52) "monitor"
               "state change embryonic -> open (monitor)";
             mk_history (mk_datetime 2023 3 8 11 52 55) "alice" "manual note" ]
           (mk_history (mk_datetime 2023 3 8 11 52 55) "alice" "manual note")).
  - vm_compute. reflexivity.
  - apply list_elem_of_further, list_elem_of_here.
Defined.

(** X9: a line that starts an entry closes what came before it: when the
    second of two blocks begins with a line that does not start with a
    blank, parsing the two blocks one after the other is parsing each and
    joining the results, and the first block that fails decides the
    exception. *)
Theorem X9_history_blocks_compose (block1 rest : list string) (row : string) :
  entry_start row = true ->
  HistoryAdapter.parse_response (block1 ++ row :: rest)
  = do! l1 <- HistoryAdapter.parse_response block1;
    do! l2 <- HistoryAdapter.parse_response (row :: rest);
    Ok (l1 ++ l2).
Proof.
  intros Hstart. unfold entry_start in Hstart. apply negb_true_iff in Hstart.
  assert (Hm : String.eqb row " " = false).
  { destruct (String.eqb row " ") eqn:E; [|reflexivity].
    apply String.eqb_eq in E as ->. discriminate. }
  unfold HistoryAdapter.parse_response. rewrite history_loop_app.
  destruct (HistoryAdapter.history_loop [] block1) as [l1|e]; [|reflexivity].
  cbn [obind HistoryAdapter.history_loop]. rewrite !history_row_cases, Hm, Hstart.
  destruct (new_entry row) as [n|e]; [|reflexivity]. cbn [obind].
  pose proof (history_loop_prefix rest l1 [] n) as Hp. simpl in Hp. simpl. rewrite Hp.
  destruct (HistoryAdapter.history_loop [n] rest) as [r|e]; [|reflexivity].
  cbn [obind]. rewrite fmap_app. reflexivity.
Qed.

Lemma X9_history_blocks_compose_witness :
  HistoryAdapter.parse_response
    (["1678273372 state change embryonic -> open (monitor)"]
     ++ "1678276375 alice" :: [" manual note "; " "])
  = do! l1 <- HistoryAdapter.parse_response
                ["1678273372 state change embryonic -> open (monitor)"];
    do! l2 <- HistoryAdapter.parse_response ("1678276375 alice" :: [" manual note "; " "]);
    Ok (l1 ++ l2).
Proof. apply X9_history_blocks_compose. reflexivity. Defined.

(** ** More on timestamps *)

(** X10: a date that [convert_timestamp] returns is a date of the
    calendar (year 1 to 9999, month 1 to 12, day 1 to 31, a time of day)
    that counts back to the timestamp it was made from; so two different
    timestamps never give the same date. *)
Theorem X10_convert_timestamp_is_faithful (a b : Z) (dt : datetime) :
  convert_timestamp a = Ok dt ->
  (timestamp_of dt = a
   /\ 1 <= year dt <= 9999 /\ 1 <= month dt <= 12 /\ 1 <= day dt <= 31
   /\ 0 <= hour dt < 24 /\ 0 <= minute dt < 60 /\ 0 <= second dt < 60)
  /\ (convert_timestamp b = Ok dt -> a = b).
Proof.
  intros Ha. pose proof (convert_timestamp_sound _ _ Ha) as Hs.
  split; [exact Hs|]. intros Hb.
  pose proof (convert_timestamp_sound _ _ Hb) as Hs'.
  destruct Hs as (<- & _). destruct Hs' as (<- & _). reflexivity.
Qed.

Lemma X10_convert_timestamp_is_faithful_witness :
  timestamp_of (mk_datetime 2023 3 8 11 2 52) = 1678273372
  /\ 1 <= 2023 <= 9999 /\ 1 <= 3 <= 12 /\ 1 <= 8 <= 31
  /\ 0 <= 11 < 24 /\ 0 <= 2 < 60 /\ 0 <= 52 < 60.
Proof.
  exact (proj1 (X10_convert_timestamp_is_faithful 1678273372 0
                  (mk_datetime 2023 3 8 11 2 52) eq_refl)).
Defined.

(** ** What the parsers can raise *)

(** The exceptions of the parsers: none of them is the session's. *)
Lemma new_entry_raises (row : string) (e : exn) :
  new_entry row = Raise e -> e = ValueError \/ e = OverflowError \/ e = OSError.
Proof.
  unfold new_entry.
  destruct (PyStr.unpack2 (PyStr.split_1 " " row)) as [[timestamp body]|e'] eqn:Hu.
  - cbn [obind]. unfold PyStr.int.
    destruct (match _ with EmptyString => _ | String _ _ => _ end) as [n|];
      cbn [obind]; [|intros [= <-]; auto].
    unfold convert_timestamp.
    repeat match goal with |- context [if ?b then _ else _] => destruct b end;
      cbn [obind]; intros [= <-]; auto.
  - cbn [obind]. intros [= <-]. unfold PyStr.unpack2 in Hu.
    destruct (PyStr.split_1 " " row) as [|? [|? [|? ?]]];
      try discriminate; left; congruence.
Qed.

Lemma history_loop_raises (history_data : list string) (l : list HistoryDict) (e : exn) :
  HistoryAdapter.history_loop l history_data = Raise e ->
  e = ValueError \/ e = OverflowError \/ e = OSError \/ e = IndexError.
Proof.
  revert l. induction history_data as [|row rest IH]; intros l; [discriminate|].
  cbn [HistoryAdapter.history_loop]. rewrite history_row_cases.
  destruct (String.eqb row " "); cbn [obind]; [apply IH|].
  destruct (PyStr.startswith " " row).
  - unfold HistoryAdapter.append_to_last_log. destruct (last l); cbn [obind];
      [apply IH|intros [= <-]; auto].
  - destruct (new_entry row) as [n|e'] eqn:Hn; cbn [obind]; [apply IH|].
    intros [= <-]. apply new_entry_raises in Hn. tauto.
Qed.

Lemma log_loop_raises (log_data : list string) (l : list LogDict) (e : exn) :
  LogAdapter.log_loop l log_data = Raise e ->
  e = ValueError \/ e = OverflowError \/ e = OSError.
Proof.
  revert l. induction log_data as [|row rest IH]; intros l; [discriminate|].
  cbn [LogAdapter.log_loop].
  destruct (LogAdapter.log_row l row) as [l'|e'] eqn:Hrow; cbn [obind]; [apply IH|].
  intros [= <-]. unfold LogAdapter.log_row in Hrow.
  destruct (PyStr.unpack2 (PyStr.split_1 " " row)) as [[timestamp body]|e2] eqn:Hu.
  - cbn [obind] in Hrow. unfold PyStr.int in Hrow.
    destruct (match _ with EmptyString => _ | String _ _ => _ end) as [n|];
      cbn [obind] in Hrow; [|injection Hrow as <-; auto].
    unfold convert_timestamp in Hrow.
    repeat match type of Hrow with context [if ?b then _ else _] => destruct b end;
      cbn [obind] in Hrow; try discriminate; injection Hrow as <-; auto.
  - cbn [obind] in Hrow. injection Hrow as <-. unfold PyStr.unpack2 in Hu.
    destruct (PyStr.split_1 " " row) as [|? [|? [|? ?]]];
      try discriminate; left; congruence.
Qed.

Lemma convert_values_raises (attrdict : gmap string string) (e : exn) :
  Converters.convert_values attrdict = Raise e -> e = ValueError.
Proof.
  unfold Converters.convert_values, Converters.FIELD_VALUE_CONVERTER_MAP.
  cbn [Converters.convert_loop]. destruct (_ !! "ac_down") as [[s|n]|]; try discriminate.
  unfold Converters.int, PyStr.int.
  destruct (match _ with EmptyString => _ | String _ _ => _ end); cbn [obind];
    [discriminate|congruence].
Qed.

(** ** More on the event manager *)

Section ManagerFurther.

Context {S : Type} `{Session S} `{EventTypes}.
Variable check_session : S -> outcome unit.
Variable set_history_for_event : Event -> list HistoryEntry -> M S Event.
Variable set_log_for_event : Event -> list LogEntry -> M S Event.

Lemma get_history_for_id_events (event_id : Z) (m : manager S) :
  events (snd (get_history_for_id check_session event_id m)) = events m.
Proof.
  unfold get_history_for_id, mbind, checked, rename_exception, call, pure.
  destruct (check_session (session m)); [|reflexivity].
  destruct (get_raw_history event_id (session m)) as [[raw|e] s']; simpl.
  - destruct (HistoryAdapter.parse_response raw); reflexivity.
  - destruct e; reflexivity.
Qed.

Lemma get_log_for_id_events (event_id : Z) (m : manager S) :
  events (snd (get_log_for_id check_session event_id m)) = events m.
Proof.
  unfold get_log_for_id, mbind, checked, rename_exception, call, pure.
  destruct (check_session (session m)); [|reflexivity].
  destruct (get_raw_log event_id (session m)) as [[raw|e] s']; simpl.
  - destruct (LogAdapter.parse_response raw); reflexivity.
  - destruct e; reflexivity.
Qed.

(** X11: no [ProtocolError] leaves [create_event_from_id],
    [get_history_for_id] or [get_log_for_id], whatever the session
    answers or raises, as long as the session check and the constructors
    of the event model raise none of their own: the session's is renamed
    and the parsers raise other exceptions. *)
Theorem X11_fetches_raise_no_protocol_error
    (event_id : Z) (m m' : manager S) (msg : string) :
  (forall s, check_session s <> Raise (ProtocolError msg)) ->
  (forall attrdict, Event_create attrdict <> Raise (ProtocolError msg)) ->
  (forall l, HistoryEntry_create_list l <> Raise (ProtocolError msg)) ->
  (forall l, LogEntry_create_list l <> Raise (ProtocolError msg)) ->
  create_event_from_id check_session event_id m <> (Raise (ProtocolError msg), m')
  /\ get_history_for_id check_session event_id m <> (Raise (ProtocolError msg), m')
  /\ get_log_for_id check_session event_id m <> (Raise (ProtocolError msg), m').
Proof.
  intros Hcheck Hevent Hhistory Hlog.
  pose proof (Hcheck (session m)) as Hc.
  split; [|split].
  - unfold create_event_from_id, mbind, checked, rename_exception, call, pure.
    destruct (check_session (session m)) as [[]|e]; [|congruence].
    destruct (get_raw_attributes event_id (session m)) as [[attrlist|e] s'];
      [|destruct e; discriminate].
    destruct (EventAdapter.attrlist_to_attrdict attrlist) as [d|e] eqn:Hd.
    + destruct (Converters.convert_values d) as [d'|e] eqn:Hd'.
      * intros [= E _]. exact (Hevent _ E).
      * apply convert_values_raises in Hd'. subst e. discriminate.
    + apply attr_loop_raises_ValueError in Hd. subst e. discriminate.
  - unfold get_history_for_id, mbind, checked, rename_exception, call, pure.
    destruct (check_session (session m)) as [[]|e]; [|congruence].
    destruct (get_raw_history event_id (session m)) as [[raw|e] s'];
      [|destruct e; discriminate].
    unfold HistoryAdapter.parse_response.
    destruct (HistoryAdapter.history_loop [] raw) as [l|e] eqn:Hl; cbn [obind].
    + intros [= E _]. exact (Hhistory _ E).
    + apply history_loop_raises in Hl. intros [= E _]. subst e.
      destruct Hl as [?|[?|[?|?]]]; discriminate.
  - unfold get_log_for_id, mbind, checked, rename_exception, call, pure.
    destruct (check_session (session m)) as [[]|e]; [|congruence].
    destruct (get_raw_log event_id (session m)) as [[raw|e] s'];
      [|destruct e; discriminate].
    unfold LogAdapter.parse_response.
    destruct (LogAdapter.log_loop [] raw) as [l|e] eqn:Hl.
    + intros [= E _]. exact (Hlog _ E).
    + apply log_loop_raises in Hl. intros [= E _]. subst e.
      destruct Hl as [?|[?|?]]; discriminate.
Qed.

(** X12: when the session check fails, every method of the manager
    raises what the check raised and leaves the manager as it was: the
    session gets no request and the store no write. *)
Theorem X12_failed_session_check_stops_every_method
    (m : manager S) (e : exn) (event_id : Z) (admin_state : AdmState) (message : string) :
  check_session (session m) = Raise e ->
  get_events check_session m = (Raise e, m)
  /\ create_event_from_id check_session event_id m = (Raise e, m)
  /\ get_history_for_id check_session event_id m = (Raise e, m)
  /\ get_log_for_id check_session event_id m = (Raise e, m)
  /\ get_updated_event_for_id check_session set_history_for_event set_log_for_event
       event_id m = (Raise e, m)
  /\ change_admin_state_for_id check_session set_history_for_event set_log_for_event
       event_id admin_state m = (Raise e, m)
  /\ add_history_entry_for_id check_session set_history_for_event set_log_for_event
       event_id message m = (Raise e, m).
Proof.
  intros Hc. unfold get_updated_event_for_id. run_manager. rewrite Hc.
  repeat split; reflexivity.
Qed.

(** X13: [create_event_from_id], [get_history_for_id] and
    [get_log_for_id] only read: whatever they return or raise, the store
    of the manager is as it was. *)
Theorem X13_fetches_leave_the_store (event_id : Z) (m : manager S) :
  events (snd (create_event_from_id check_session event_id m)) = events m
  /\ events (snd (get_history_for_id check_session event_id m)) = events m
  /\ events (snd (get_log_for_id check_session event_id m)) = events m.
Proof.
  split; [apply create_event_from_id_events|].
  split; [apply get_history_for_id_events|apply get_log_for_id_events].
Qed.

(** X14: the failure of a parser is not renamed.  When the session
    answers the attributes with a line that has no [:],
    [create_event_from_id] raises the [ValueError] of the parser, not a
    [ManagerException]; the session has been asked and the store is as it
    was. *)
Theorem X14_parser_errors_are_not_renamed
    (event_id : Z) (m : manager S) (attrlist : list string) (s' : S) :
  check_session (session m) = Ok tt ->
  get_raw_attributes event_id (session m) = (Ok attrlist, s') ->
  Exists (fun item => PyStr.contains ":" item = false) attrlist ->
  create_event_from_id check_session event_id m
  = (Raise ValueError, mk_manager s' (events m)).
Proof.
  intros Hc Hs Hbad.
  pose proof (attr_loop_no_colon _ ∅ Hbad) as Hparse.
  run_manager. rewrite Hc, Hs. unfold pure, EventAdapter.attrlist_to_attrdict.
  cbn. rewrite Hparse. reflexivity.
Qed.

(** X15: when [get_events] returns, the session had a list of ids to
    give, every id of that list is in the store, and the entries of the
    other ids are as they were: the keys of the store are the old ones
    and the listed ones, and nothing is ever taken out. *)
Theorem X15_get_events_adds_the_listed_ids (m m' : manager S) :
  get_events check_session m = (Ok tt, m') ->
  exists ids,
    fst (get_caseids (session m)) = Ok ids
    /\ dom (events m') = dom (events m) ∪ list_to_set ids
    /\ (forall j, j ∉ ids -> events m' !! j = events m !! j).
Proof.
  intros Hrun.
  destruct (check_session (session m)) as [[]|e] eqn:Hc;
    [|revert Hrun; run_manager; rewrite Hc; discriminate].
  destruct (get_caseids (session m)) as [[ids|e] s1] eqn:Hs;
    [|revert Hrun; run_manager; rewrite Hc, Hs; discriminate].
  rewrite (get_events_run check_session _ _ _ Hc Hs) in Hrun.
  destruct (fetch_loop_ok check_session _ _ _ Hrun) as (Hin & Hout).
  exists ids. split; [reflexivity|]. split; [|exact Hout].
  apply set_eq. intros i. rewrite elem_of_union, !elem_of_dom, elem_of_list_to_set.
  destruct (decide (i ∈ ids)) as [Hi|Hi].
  - split; [auto|]. intros _. exact (Hin i Hi).
  - rewrite (Hout i Hi). simpl. tauto.
Qed.

(** X16: when the session declines the new history entry,
    [add_history_entry_for_id] returns [None] and asks for nothing more:
    the store is as it was and the session has seen that one request. *)
Theorem X16_declined_history_entry_returns_none
    (event_id : Z) (message : string) (m : manager S) (event : Event) (s' : S) :
  check_session (session m) = Ok tt ->
  events m !! event_id = Some event ->
  add_history (Event_id event) message (session m) = (Ok false, s') ->
  add_history_entry_for_id check_session set_history_for_event set_log_for_event
    event_id message m
  = (Ok None, mk_manager s' (events m)).
Proof.
  intros Hc He Hs. run_manager. rewrite Hc, He. simpl. rewrite Hs. reflexivity.
Qed.

(** X17: a change of state that the session accepted is not undone
    when the refresh that follows fails.  Whatever
    [create_event_from_id] raises then leaves
    [change_admin_state_for_id], and the store still holds the event as
    it was before the change. *)
Theorem X17_failed_refresh_keeps_the_old_event
    (event_id : Z) (admin_state : AdmState) (m m2 : manager S) (event : Event)
    (s1 : S) (e : exn) :
  check_session (session m) = Ok tt ->
  events m !! event_id = Some event ->
  set_state (Event_id event) (AdmState_value admin_state) (session m) = (Ok true, s1) ->
  create_event_from_id check_session event_id (mk_manager s1 (events m)) = (Raise e, m2) ->
  change_admin_state_for_id check_session set_history_for_event set_log_for_event
    event_id admin_state m = (Raise e, m2)
  /\ events m2 = events m
  /\ events m2 !! event_id = Some event.
Proof.
  intros Hc He Hs Hfail.
  assert (Hev : events m2 = events m).
  { pose proof (create_event_from_id_events check_session event_id
                  (mk_manager s1 (events m))) as E.
    rewrite Hfail in E. exact E. }
  split; [|split; [exact Hev|rewrite Hev; exact He]].
  unfold change_admin_state_for_id, get_updated_event_for_id, set_admin_state,
    _get_event, checked, call.
  unfold mbind at 1. rewrite Hc. unfold mbind at 1. rewrite He.
  unfold mbind at 1. rewrite Hs. unfold mbind at 1 2. rewrite Hfail. reflexivity.
Qed.

(** X18: [get_updated_event_for_id] asks for the history under the id
    that the fetched attributes carry, not under the id it was called
    with; a protocol error of that request leaves the method as a
    [ManagerException] and no event is returned. *)
Theorem X18_history_is_fetched_by_the_events_own_id
    (event_id : Z) (m m1 : manager S) (event : Event) (msg : string) (s2 : S) :
  create_event_from_id check_session event_id m = (Ok event, m1) ->
  check_session (session m1) = Ok tt ->
  get_raw_history (Event_id event) (session m1) = (Raise (ProtocolError msg), s2) ->
  get_updated_event_for_id check_session set_history_for_event set_log_for_event
    event_id m
  = (Raise (ManagerException (ProtocolError msg)), mk_manager s2 (events m)).
Proof.
  intros Hcreate Hc Hs.
  assert (Hev : events m1 = events m).
  { pose proof (create_event_from_id_events check_session event_id m) as E.
    rewrite Hcreate in E. exact E. }
  unfold get_updated_event_for_id. unfold mbind at 1. rewrite Hcreate.
  unfold mbind at 1.
  rewrite (get_history_for_id_protocol_error check_session _ _ _ _ Hc Hs), Hev.
  reflexivity.
Qed.

End ManagerFurther.

Lemma X11_fetches_raise_no_protocol_error_witness :
  @create_event_from_id _ (Demo.scripted Demo.disconnected) Demo.types
    Demo.check_session 1 Demo.manager_1
  <> (Raise (ProtocolError "not connected"), Demo.manager_1)
  /\ @get_history_for_id _ (Demo.scripted Demo.disconnected) Demo.types
       Demo.check_session 1 Demo.manager_1
     <> (Raise (ProtocolError "not connected"), Demo.manager_1)
  /\ @get_log_for_id _ (Demo.scripted Demo.disconnected) Demo.types
       Demo.check_session 1 Demo.manager_1
     <> (Raise (ProtocolError "not connected"), Demo.manager_1).
Proof.
  apply (@X11_fetches_raise_no_protocol_error _ (Demo.scripted Demo.disconnected)
           Demo.types Demo.check_session 1 Demo.manager_1 Demo.manager_1
           "not connected").
  - intros s. discriminate.
  - intros attrdict. simpl. unfold Demo.create.
    destruct (attrdict !! "id") as [[s|n]|]; try discriminate.
    unfold PyStr.int.
    destruct (match _ with EmptyString => _ | String _ _ => _ end); discriminate.
  - intros l. discriminate.
  - intros l. discriminate.
Defined.

Lemma X12_failed_session_check_stops_every_method_witness :
  @get_events _ (Demo.scripted Scenes.healthy) Demo.types Scenes.not_connected
    Demo.manager_1
  = (Raise (OtherError "NotConnectedError"), Demo.manager_1)
  /\ @change_admin_state_for_id _ (Demo.scripted Scenes.healthy) Demo.types
       Scenes.not_connected Demo.set_history_for_event Demo.set_log_for_event
       1 "closed" Demo.manager_1
     = (Raise (OtherError "NotConnectedError"), Demo.manager_1).
Proof.
  pose proof (@X12_failed_session_check_stops_every_method _
                (Demo.scripted Scenes.healthy) Demo.types Scenes.not_connected
                Demo.set_history_for_event Demo.set_log_for_event
                Demo.manager_1 (OtherError "NotConnectedError") 1 "closed" "note"
                eq_refl) as (Hget & _ & _ & _ & _ & Hchange & _).
  split; [exact Hget|exact Hchange].
Defined.

Lemma X14_parser_errors_are_not_renamed_witness :
  @create_event_from_id _ (Demo.scripted Scenes.malformed) Demo.types
    Demo.check_session 1 Demo.fresh
  = (Raise ValueError, mk_manager [Demo.ReqAttributes 1] ∅).
Proof.
  apply (@X14_parser_errors_are_not_renamed _ (Demo.scripted Scenes.malformed)
           Demo.types Demo.check_session 1 Demo.fresh ["id:1"; "state open"]).
  - reflexivity.
  - reflexivity.
  - apply Exists_cons_tl, Exists_cons_hd. reflexivity.
Defined.

Lemma X15_get_events_adds_the_listed_ids_witness :
  exists ids,
    fst (@get_caseids _ (Demo.scripted Scenes.healthy) (session Demo.manager_1)) = Ok ids
    /\ dom (events (snd (@get_events _ (Demo.scripted Scenes.healthy) Demo.types
                           Demo.check_session Demo.manager_1)))
       = dom (events Demo.manager_1) ∪ list_to_set ids
    /\ (forall j, j ∉ ids ->
          events (snd (@get_events _ (Demo.scripted Scenes.healthy) Demo.types
                         Demo.check_session Demo.manager_1)) !! j
          = events Demo.manager_1 !! j).
Proof.
  refine (@X15_get_events_adds_the_listed_ids _ (Demo.scripted Scenes.healthy)
            Demo.types Demo.check_session Demo.manager_1
            (snd (@get_events _ (Demo.scripted Scenes.healthy) Demo.types
                    Demo.check_session Demo.manager_1)) _).
  apply injective_projections; reflexivity.
Defined.

Lemma X16_declined_history_entry_returns_none_witness :
  @add_history_entry_for_id _ (Demo.scripted Demo.declining) Demo.types
    Demo.check_session Demo.set_history_for_event Demo.set_log_for_event
    1 "looking into it" Demo.manager_1
  = (Ok None, mk_manager [Demo.ReqAddHistory 1 "looking into it"] (events Demo.manager_1)).
Proof.
  exact (@X16_declined_history_entry_returns_none _ (Demo.scripted Demo.declining)
           Demo.types Demo.check_session Demo.set_history_for_event
           Demo.set_log_for_event 1 "looking into it" Demo.manager_1 Demo.event_1
           [Demo.ReqAddHistory 1 "looking into it"] eq_refl eq_refl eq_refl).
Defined.

Lemma X17_failed_refresh_keeps_the_old_event_witness :
  @change_admin_state_for_id _ (Demo.scripted Scenes.accepting) Demo.types
    Demo.check_session Demo.set_history_for_event Demo.set_log_for_event
    1 "closed" Demo.manager_1
  = (Raise (ManagerException (ProtocolError "no such case")),
     mk_manager [Demo.ReqSetState 1 "closed"; Demo.ReqAttributes 1]
       (events Demo.manager_1))
  /\ events Demo.manager_1 = events Demo.manager_1
  /\ events Demo.manager_1 !! 1 = Some Demo.event_1.
Proof.
  exact (@X17_failed_refresh_keeps_the_old_event _ (Demo.scripted Scenes.accepting)
           Demo.types Demo.check_session Demo.set_history_for_event
           Demo.set_log_for_event 1 "closed" Demo.manager_1
           (mk_manager [Demo.ReqSetState 1 "closed"; Demo.ReqAttributes 1]
              (events Demo.manager_1))
           Demo.event_1 [Demo.ReqSetState 1 "closed"]
           (ManagerException (ProtocolError "no such case"))
           eq_refl eq_refl eq_refl eq_refl).
Defined.

Lemma X18_history_is_fetched_by_the_events_own_id_witness :
  @get_updated_event_for_id _ (Demo.scripted Scenes.renumbered) Demo.types
    Demo.check_session Demo.set_history_for_event Demo.set_log_for_event
    1 Demo.fresh
  = (Raise (ManagerException (ProtocolError "no history")),
     mk_manager [Demo.ReqAttributes 1; Demo.ReqHistory 7] ∅).
Proof.
  apply (@X18_history_is_fetched_by_the_events_own_id _
           (Demo.scripted Scenes.renumbered) Demo.types Demo.check_session
           Demo.set_history_for_event Demo.set_log_for_event
           1 Demo.fresh (mk_manager [Demo.ReqAttributes 1] ∅) Scenes.event_7
           "no history" [Demo.ReqAttributes 1; Demo.ReqHistory 7]).
  - reflexivity.
  - reflexivity.
  - reflexivity.
Defined.

(** ** More on the poll step *)

Lemma list_remove_elem (x : Z) (l : list Z) :
  x ∈ l -> exists l', list_remove x l = Ok l'.
Proof.
  induction l as [|y l IH]; intros Hx; [inversion Hx|].
  cbn [list_remove]. destruct (decide (y = x)) as [->|Hne]; [eauto|].
  apply elem_of_cons in Hx as [->|Hx]; [contradiction|].
  destruct (IH Hx) as (l' & ->). cbn [obind]. eauto.
Qed.

Lemma list_remove_not_elem (x : Z) (l : list Z) :
  x ∉ l -> list_remove x l = Raise ValueError.
Proof.
  induction l as [|y l IH]; intros Hx; [reflexivity|].
  apply not_elem_of_cons in Hx as (Hne & Hx).
  cbn [list_remove]. destruct (decide (y = x)) as [->|_]; [contradiction|].
  rewrite (IH Hx). reflexivity.
Qed.

Lemma list_remove_sublist (x : Z) (l l' : list Z) :
  list_remove x l = Ok l' -> l' `sublist_of` l.
Proof.
  revert l'. induction l as [|y l IH]; intros l'; [discriminate|].
  cbn [list_remove]. destruct (decide (y = x)) as [->|Hne].
  - intros [= <-]. apply sublist_cons. reflexivity.
  - destruct (list_remove x l) as [r|e]; [|discriminate]. cbn [obind].
    intros [= <-]. apply sublist_skip. apply IH. reflexivity.
Qed.

Lemma list_remove_perm (x : Z) (l l' : list Z) :
  list_remove x l = Ok l' -> l ≡ₚ x :: l'.
Proof.
  revert l'. induction l as [|y l IH]; intros l'; [discriminate|].
  cbn [list_remove]. destruct (decide (y = x)) as [->|Hne].
  - intros [= <-]. reflexivity.
  - destruct (list_remove x l) as [r|e]; [|discriminate]. cbn [obind].
    intros [= <-]. rewrite (IH r eq_refl). apply Permutation_swap.
Qed.

Lemma list_remove_snoc (x : Z) (l : list Z) :
  x ∉ l -> list_remove x (l ++ [x]) = Ok l.
Proof.
  induction l as [|y l IH]; intros Hx.
  - cbn. destruct (decide (x = x)); [reflexivity|contradiction].
  - apply not_elem_of_cons in Hx as (Hne & Hx).
    cbn [app list_remove]. destruct (decide (y = x)) as [->|_]; [contradiction|].
    rewrite (IH Hx). reflexivity.
Qed.

Section PollFurther.

Context {Sess Case Notif : Type}.
Variable session_case : Z -> Sess -> outcome Case * Sess.
Variable notifier_poll : Notif -> outcome (option Notification) * Notif.

Lemma poll_run (d : dashboard Sess Case Notif) (update : Notification) (n' : Notif) :
  notifier_poll (d_notifier d) = (Ok (Some update), n') ->
  poll session_case notifier_poll d = reconcile session_case update (polled d n').
Proof. intros Hn. unfold poll. rewrite Hn. reflexivity. Qed.

(** What one step of the chain of tests may change. *)
Lemma dispatch_frame (update : Notification) (d d' : dashboard Sess Case Notif)
    (r : outcome (option bool)) :
  dispatch session_case update d = (r, d') ->
  (forall j, j <> n_id update -> cases d' !! j = cases d !! j)
  /\ cases_selected d' `sublist_of` cases_selected d
  /\ (fetched d' = fetched d /\ d_session d' = d_session d
      \/ fetched d' = fetched d ++ [n_id update])
  /\ d_notifier d' = d_notifier d.
Proof.
  assert (Hfetch : forall r d',
    fetch_case session_case (n_id update) d = (r, d') ->
    (forall j, j <> n_id update -> cases d' !! j = cases d !! j)
    /\ cases_selected d' `sublist_of` cases_selected d
    /\ (fetched d' = fetched d /\ d_session d' = d_session d
        \/ fetched d' = fetched d ++ [n_id update])
    /\ d_notifier d' = d_notifier d).
  { intros r0 d0. unfold fetch_case.
    destruct (session_case (n_id update) (d_session d)) as [[c|e] s'];
      intros [= _ <-]; cbn; (split; [|split; [reflexivity|split; [right; reflexivity|reflexivity]]]).
    - intros j Hj. apply lookup_insert_ne. congruence.
    - reflexivity. }
  assert (Hnone : forall r0,
    (r0, d) = (r, d') ->
    (forall j, j <> n_id update -> cases d' !! j = cases d !! j)
    /\ cases_selected d' `sublist_of` cases_selected d
    /\ (fetched d' = fetched d /\ d_session d' = d_session d
        \/ fetched d' = fetched d ++ [n_id update])
    /\ d_notifier d' = d_notifier d).
  { intros r0 [= _ <-]. split; [reflexivity|]. split; [reflexivity|]. split; [left|]; auto. }
  unfold dispatch.
  destruct (String.eqb (n_type update) "state"); [apply Hfetch|].
  destruct (String.eqb (n_type update) "attr"); [apply Hfetch|].
  destruct (String.eqb (n_type update) "history"); [apply Hnone|].
  destruct (String.eqb (n_type update) "log"); [apply Hnone|].
  destruct (String.eqb (n_type update) "scavenged"); [|apply Hnone].
  unfold scavenge. destruct (case_selected _ _); cbn.
  - destruct (list_remove (n_id update) (cases_selected d)) as [l|e] eqn:Hl;
      intros [= _ <-]; cbn.
    + split; [intros j Hj; apply lookup_delete_ne; congruence|].
      split; [exact (list_remove_sublist _ _ _ Hl)|]. split; [left|]; auto.
    + split; [intros j Hj; apply lookup_delete_ne; congruence|].
      split; [reflexivity|]. split; [left|]; auto.
  - intros [= _ <-]. cbn.
    split; [intros j Hj; apply lookup_delete_ne; congruence|].
    split; [reflexivity|]. split; [left|]; auto.
Qed.

(** X19: one step of [poll] touches the case of the notified id only.
    The cases of the other ids are as they were, the selection loses
    ids at most and keeps its order, the session is asked for the notified
    id once or not at all, and the notifier has handed out one
    notification: whatever the kind of the notification, and whether the
    step returns or raises. *)
Theorem X19_poll_touches_only_the_notified_id
    (d d' : dashboard Sess Case Notif) (update : Notification) (n' : Notif)
    (r : outcome (option bool)) :
  notifier_poll (d_notifier d) = (Ok (Some update), n') ->
  poll session_case notifier_poll d = (r, d') ->
  (forall j, j <> n_id update -> cases d' !! j = cases d !! j)
  /\ cases_selected d' `sublist_of` cases_selected d
  /\ (fetched d' = fetched d /\ d_session d' = d_session d
      \/ fetched d' = fetched d ++ [n_id update])
  /\ d_notifier d' = n'.
Proof.
  intros Hn. rewrite (poll_run _ _ _ Hn). unfold reconcile.
  assert (Hdrop : (Ok None, polled d n') = (r, d') ->
    (forall j, j <> n_id update -> cases d' !! j = cases d !! j)
    /\ cases_selected d' `sublist_of` cases_selected d
    /\ (fetched d' = fetched d /\ d_session d' = d_session d
        \/ fetched d' = fetched d ++ [n_id update])
    /\ d_notifier d' = n').
  { intros [= _ <-]. cbn. split; [reflexivity|]. split; [reflexivity|].
    split; [left|]; auto. }
  destruct (bool_decide _); [destruct (negb _); [exact Hdrop|]|];
    intros Hd; exact (dispatch_frame _ _ _ _ Hd).
Qed.

(** X20: for a notification of kind [state], or of kind [attr] for an
    id in the store, [poll] asks the session for the case once.  When the
    session gives it, the case is stored under the id and [poll] returns
    [True]; when the session raises, the exception leaves [poll] and the
    store keeps what it had. *)
Theorem X20_refetch_stores_or_keeps
    (d : dashboard Sess Case Notif) (update : Notification) (n' : Notif) (s' : Sess)
    (answer : outcome Case) :
  notifier_poll (d_notifier d) = (Ok (Some update), n') ->
  n_type update = "state"
  \/ (n_type update = "attr" /\ is_Some (cases d !! n_id update)) ->
  session_case (n_id update) (d_session d) = (answer, s') ->
  poll session_case notifier_poll d
  = match answer with
    | Ok c =>
        (Ok (Some true),
         mk_dashboard (<[n_id update := c]> (cases d)) (cases_selected d) s' n'
           (fetched d ++ [n_id update]))
    | Raise e =>
        (Raise e,
         mk_dashboard (cases d) (cases_selected d) s' n' (fetched d ++ [n_id update]))
    end.
Proof.
  intros Hn Hkind Hs. rewrite (poll_run _ _ _ Hn). unfold reconcile.
  assert (Hd : dispatch session_case update (polled d n')
               = fetch_case session_case (n_id update) (polled d n')).
  { unfold dispatch. destruct Hkind as [->|[-> _]]; reflexivity. }
  assert (Hf : fetch_case session_case (n_id update) (polled d n')
               = match answer with
                 | Ok c =>
                     (Ok (Some true),
                      mk_dashboard (<[n_id update := c]> (cases d)) (cases_selected d) s' n'
                        (fetched d ++ [n_id update]))
                 | Raise e =>
                     (Raise e,
                      mk_dashboard (cases d) (cases_selected d) s' n'
                        (fetched d ++ [n_id update]))
                 end).
  { unfold fetch_case. cbn. rewrite Hs. destruct answer; reflexivity. }
  destruct Hkind as [Hty|[Hty Hknown]].
  - rewrite Hty. cbn [negb String.eqb]. 
    assert (E : String.eqb "state" "state" = true) by reflexivity.
    destruct (bool_decide _); rewrite ?E; cbn [negb]; rewrite Hd; exact Hf.
  - rewrite bool_decide_false; [rewrite Hd; exact Hf|].
    cbn. destruct Hknown as [c Hc]. rewrite Hc. discriminate.
Qed.

(** X21: a [scavenged] notification whose [case] is its own id, for an
    id in the store, with a selection that holds no id twice: [poll]
    returns [True], the id has left the store and the selection, and the
    other ids are selected as before. *)
Theorem X21_scavenged_case_leaves_store_and_selection
    (d : dashboard Sess Case Notif) (update : Notification) (n' : Notif) :
  notifier_poll (d_notifier d) = (Ok (Some update), n') ->
  n_type update = "scavenged" ->
  is_Some (cases d !! n_id update) ->
  n_case update = Some (n_id update) ->
  NoDup (cases_selected d) ->
  exists d',
    poll session_case notifier_poll d = (Ok (Some true), d')
    /\ cases d' = delete (n_id update) (cases d)
    /\ (n_id update ∉ cases_selected d')
    /\ (forall j, j <> n_id update -> j ∈ cases_selected d' <-> j ∈ cases_selected d)
    /\ d_session d' = d_session d /\ fetched d' = fetched d.
Proof.
  intros Hn Hty [c Hc] Hcase Hnd. rewrite (poll_run _ _ _ Hn). unfold reconcile.
  rewrite bool_decide_false by (cbn; rewrite Hc; discriminate).
  unfold dispatch. rewrite Hty. cbn [String.eqb Ascii.eqb Bool.eqb].
  change (String.eqb "scavenged" "state") with false.
  unfold scavenge, case_selected. cbn. rewrite Hcase.
  destruct (decide (n_id update ∈ cases_selected d)) as [Hin|Hout].
  - rewrite bool_decide_true by exact Hin.
    destruct (list_remove_elem _ _ Hin) as (l & Hl). rewrite Hl.
    eexists. split; [reflexivity|]. cbn.
    pose proof (list_remove_perm _ _ _ Hl) as Hp.
    assert (Hnd' : NoDup (n_id update :: l)) by (rewrite <- Hp; exact Hnd).
    apply NoDup_cons in Hnd' as (Hnot & _).
    split; [reflexivity|]. split; [exact Hnot|]. split; [|auto].
    intros j Hj. rewrite Hp, elem_of_cons. split; [auto|]. intros [?|?]; [contradiction|auto].
  - rewrite bool_decide_false by exact Hout.
    eexists. split; [reflexivity|]. cbn.
    split; [reflexivity|]. split; [exact Hout|]. split; [reflexivity|auto].
Qed.

(** X22: the [scavenged] branch tests [update.case] and removes
    [update.id].  For an id in the store, when the case of the
    notification is selected and its id is not, [poll] raises the
    [ValueError] of [list.remove]; the case has left the store by then
    and the selection is as it was. *)
Theorem X22_scavenged_with_other_case_raises
    (d : dashboard Sess Case Notif) (update : Notification) (n' : Notif) (c : Z) :
  notifier_poll (d_notifier d) = (Ok (Some update), n') ->
  n_type update = "scavenged" ->
  is_Some (cases d !! n_id update) ->
  n_case update = Some c ->
  c ∈ cases_selected d ->
  n_id update ∉ cases_selected d ->
  poll session_case notifier_poll d
  = (Raise ValueError,
     mk_dashboard (delete (n_id update) (cases d)) (cases_selected d) (d_session d) n'
       (fetched d)).
Proof.
  intros Hn Hty [c0 Hc0] Hcase Hin Hout. rewrite (poll_run _ _ _ Hn). unfold reconcile.
  rewrite bool_decide_false by (cbn; rewrite Hc0; discriminate).
  unfold dispatch. rewrite Hty.
  change (String.eqb "scavenged" "state") with false.
  change (String.eqb "scavenged" "attr") with false.
  change (String.eqb "scavenged" "history") with false.
  change (String.eqb "scavenged" "log") with false.
  change (String.eqb "scavenged" "scavenged") with true. cbv iota.
  unfold scavenge, case_selected. cbn. rewrite Hcase.
  rewrite bool_decide_true by exact Hin.
  rewrite (list_remove_not_elem _ _ Hout). reflexivity.
Qed.

(** X23: [poll] returns [False] for one reason only: a notification for
    an id in the store whose kind is none of [state], [attr], [history],
    [log] and [scavenged]; nothing but the notifier has changed then. *)
Theorem X23_poll_returns_false_for_unknown_kinds_only
    (d : dashboard Sess Case Notif) (update : Notification) (n' : Notif) :
  notifier_poll (d_notifier d) = (Ok (Some update), n') ->
  (fst (poll session_case notifier_poll d) = Ok (Some false)
   <-> is_Some (cases d !! n_id update)
       /\ n_type update ∉ ["state"; "attr"; "history"; "log"; "scavenged"])
  /\ (fst (poll session_case notifier_poll d) = Ok (Some false) ->
      poll session_case notifier_poll d = (Ok (Some false), polled d n')).
Proof.
  intros Hn. rewrite (poll_run _ _ _ Hn).
  assert (Hfetch : forall d0 : dashboard Sess Case Notif,
            fst (fetch_case session_case (n_id update) d0) <> Ok (Some false)).
  { intros d0. unfold fetch_case.
    destruct (session_case (n_id update) (d_session d0)) as [[c|e] s']; discriminate. }
  assert (Hscav : forall d0 : dashboard Sess Case Notif,
            fst (scavenge update d0) <> Ok (Some false)).
  { intros d0. unfold scavenge. destruct (case_selected _ _); [|discriminate].
    destruct (list_remove _ _); discriminate. }
  assert (Hdisp : forall d0 : dashboard Sess Case Notif,
    (fst (dispatch session_case update d0) = Ok (Some false)
     <-> n_type update ∉ ["state"; "attr"; "history"; "log"; "scavenged"])
    /\ (fst (dispatch session_case update d0) = Ok (Some false) ->
        dispatch session_case update d0 = (Ok (Some false), d0))).
  { intros d0. unfold dispatch.
    destruct (String.eqb_spec (n_type update) "state") as [E1|E1].
    { split; [split|]; intros Hf; [destruct (Hfetch _ Hf)| |destruct (Hfetch _ Hf)].
      destruct Hf. rewrite E1. apply elem_of_cons. auto. }
    destruct (String.eqb_spec (n_type update) "attr") as [E2|E2].
    { split; [split|]; intros Hf; [destruct (Hfetch _ Hf)| |destruct (Hfetch _ Hf)].
      destruct Hf. rewrite E2. set_unfold. auto. }
    destruct (String.eqb_spec (n_type update) "history") as [E3|E3].
    { split; [split|]; intros Hf; [discriminate| |discriminate].
      destruct Hf. rewrite E3. set_unfold. auto. }
    destruct (String.eqb_spec (n_type update) "log") as [E4|E4].
    { split; [split|]; intros Hf; [discriminate| |discriminate].
      destruct Hf. rewrite E4. set_unfold. auto 6. }
    destruct (String.eqb_spec (n_type update) "scavenged") as [E5|E5].
    { split; [split|]; intros Hf; [destruct (Hscav _ Hf)| |destruct (Hscav _ Hf)].
      destruct Hf. rewrite E5. set_unfold. auto 6. }
    split; [split|]; [| reflexivity | reflexivity].
    intros _ Hin. set_unfold. intuition congruence. }
  unfold reconcile. cbn [polled cases].
  destruct (cases d !! n_id update) as [c|] eqn:Hc.
  - rewrite bool_decide_false by discriminate.
    destruct (Hdisp (polled d n')) as (Hiff & Hrun). split; [|exact Hrun].
    rewrite Hiff. split; [eauto|tauto].
  - rewrite bool_decide_true by reflexivity.
    destruct (String.eqb_spec (n_type update) "state") as [E1|E1]; cbn [negb].
    + destruct (Hdisp (polled d n')) as (Hiff & Hrun). split; [|exact Hrun].
      rewrite Hiff. split.
      * intros Hnot. destruct Hnot. rewrite E1. apply elem_of_cons. auto.
      * intros [[? ?] _]. discriminate.
    + split; [|discriminate]. split; [discriminate|]. intros [[? ?] _]. discriminate.
Qed.

End PollFurther.

Lemma X19_poll_touches_only_the_notified_id_witness :
  (forall j, j <> 1 ->
     cases (snd (PollDemo.poll
                   (PollDemo.selected_1 [mk_notification 1 "scavenged" (Some 1)]))) !! j
     = ({[1 := 1]} : gmap Z Z) !! j)
  /\ cases_selected (snd (PollDemo.poll
                            (PollDemo.selected_1 [mk_notification 1 "scavenged" (Some 1)])))
     `sublist_of` [1]
  /\ (fetched (snd (PollDemo.poll
                      (PollDemo.selected_1 [mk_notification 1 "scavenged" (Some 1)]))) = []
      /\ d_session (snd (PollDemo.poll
                           (PollDemo.selected_1 [mk_notification 1 "scavenged" (Some 1)])))
         = tt
      \/ fetched (snd (PollDemo.poll
                         (PollDemo.selected_1 [mk_notification 1 "scavenged" (Some 1)])))
         = [] ++ [1])
  /\ d_notifier (snd (PollDemo.poll
                        (PollDemo.selected_1 [mk_notification 1 "scavenged" (Some 1)])))
     = [].
Proof.
  refine (@X19_poll_touches_only_the_notified_id unit Z (list Notification)
            PollDemo.session_case PollDemo.notifier_poll
            (PollDemo.selected_1 [mk_notification 1 "scavenged" (Some 1)])
            (snd (PollDemo.poll
                    (PollDemo.selected_1 [mk_notification 1 "scavenged" (Some 1)])))
            (mk_notification 1 "scavenged" (Some 1)) []
            (fst (PollDemo.poll
                    (PollDemo.selected_1 [mk_notification 1 "scavenged" (Some 1)])))
            eq_refl _).
  apply surjective_pairing.
Defined.

Lemma X20_refetch_stores_or_keeps_witness :
  PollDemo.poll (PollDemo.stale_selection [mk_notification 5 "state" None])
  = (Ok (Some true), mk_dashboard (<[5 := 5]> (∅ : gmap Z Z)) [5] tt [] ([] ++ [5])).
Proof.
  refine (@X20_refetch_stores_or_keeps unit Z (list Notification)
            PollDemo.session_case PollDemo.notifier_poll
            (PollDemo.stale_selection [mk_notification 5 "state" None])
            (mk_notification 5 "state" None) [] tt (Ok 5) eq_refl _ eq_refl).
  left. reflexivity.
Defined.

Lemma X21_scavenged_case_leaves_store_and_selection_witness :
  exists d',
    PollDemo.poll (PollDemo.selected_1 [mk_notification 1 "scavenged" (Some 1)])
    = (Ok (Some true), d')
    /\ cases d' = delete 1 ({[1 := 1]} : gmap Z Z)
    /\ (1 ∉ cases_selected d')
    /\ (forall j, j <> 1 -> j ∈ cases_selected d' <-> j ∈ [1])
    /\ d_session d' = tt /\ fetched d' = [].
Proof.
  refine (@X21_scavenged_case_leaves_store_and_selection unit Z (list Notification)
            PollDemo.session_case PollDemo.notifier_poll
            (PollDemo.selected_1 [mk_notification 1 "scavenged" (Some 1)])
            (mk_notification 1 "scavenged" (Some 1)) [] eq_refl eq_refl _ eq_refl _).
  - exists 1. reflexivity.
  - apply NoDup_singleton.
Defined.

Lemma X22_scavenged_with_other_case_raises_witness :
  PollDemo.poll
    (mk_dashboard ({[1 := 1; 2 := 2]} : gmap Z Z) [2] tt
       [mk_notification 1 "scavenged" (Some 2)] [])
  = (Raise ValueError,
     mk_dashboard (delete 1 ({[1 := 1; 2 := 2]} : gmap Z Z)) [2] tt [] []).
Proof.
  refine (@X22_scavenged_with_other_case_raises unit Z (list Notification)
            PollDemo.session_case PollDemo.notifier_poll
            (mk_dashboard ({[1 := 1; 2 := 2]} : gmap Z Z) [2] tt
               [mk_notification 1 "scavenged" (Some 2)] [])
            (mk_notification 1 "scavenged" (Some 2)) [] 2 eq_refl eq_refl _ eq_refl _ _).
  - exists 1. reflexivity.
  - apply list_elem_of_singleton. reflexivity.
  - intros Hin. apply list_elem_of_singleton in Hin. discriminate.
Defined.

Lemma X23_poll_returns_false_for_unknown_kinds_only_witness :
  fst (PollDemo.poll (PollDemo.selected_1 [mk_notification 1 "flaps" None]))
  = Ok (Some false)
  <-> is_Some (({[1 := 1]} : gmap Z Z) !! 1)
      /\ "flaps" ∉ ["state"; "attr"; "history"; "log"; "scavenged"].
Proof.
  exact (proj1 (@X23_poll_returns_false_for_unknown_kinds_only unit Z (list Notification)
                  PollDemo.session_case PollDemo.notifier_poll
                  (PollDemo.selected_1 [mk_notification 1 "flaps" None])
                  (mk_notification 1 "flaps" None) [] eq_refl)).
Defined.

(** ** The selection key of [runner] *)

(** [l.remove(x)] takes the first [x] out and leaves the rest in place. *)
Lemma list_remove_split (x : Z) (l l' : list Z) :
  list_remove x l = Ok l' ->
  exists pre post, l = pre ++ x :: post /\ l' = pre ++ post /\ x ∉ pre.
Proof.
  revert l'. induction l as [|y l IH]; intros l'; [discriminate|].
  cbn [list_remove]. destruct (decide (y = x)) as [->|Hne].
  - intros [= <-]. exists [], l. split; [reflexivity|]. split; [reflexivity|].
    apply not_elem_of_nil.
  - destruct (list_remove x l) as [r|e]; [|discriminate]. cbn [obind].
    intros [= <-]. destruct (IH r eq_refl) as (pre & post & -> & -> & Hpre).
    exists (y :: pre), post. split; [reflexivity|]. split; [reflexivity|].
    apply not_elem_of_cons. split; [congruence|exact Hpre].
Qed.

(** X24: the key [x] on a selection that holds no id twice.  The toggle
    raises nothing; the id of the active line is selected afterwards
    exactly when it was not before, the other ids are selected as before
    and no id is held twice.  An id that was not selected is put at the
    end of the selection, and a second toggle gives the first selection
    back as it was.  An id that was selected is taken out with the other
    ids left in their order, and a second toggle puts it back at the end:
    the first selection with the id moved to the end. *)
Theorem X24_toggle_selected_flips_one_id (id : Z) (l : list Z) :
  NoDup l ->
  exists l',
    toggle_selected id l = Ok l'
    /\ NoDup l'
    /\ (id ∈ l' <-> id ∉ l)
    /\ (forall j, j <> id -> j ∈ l' <-> j ∈ l)
    /\ exists l'',
         toggle_selected id l' = Ok l''
         /\ l'' ≡ₚ l
         /\ (id ∉ l -> l' = l ++ [id] /\ l'' = l)
         /\ (id ∈ l ->
             exists pre post,
               l = pre ++ id :: post
               /\ l' = pre ++ post
               /\ l'' = pre ++ post ++ [id]).
Proof.
  intros Hnd. unfold toggle_selected at 1.
  destruct (decide (id ∈ l)) as [Hin|Hout].
  - rewrite bool_decide_true by exact Hin.
    destruct (list_remove_elem _ _ Hin) as (l' & Hl). exists l'.
    pose proof (list_remove_perm _ _ _ Hl) as Hp.
    assert (Hnd' : NoDup (id :: l')) by (rewrite <- Hp; exact Hnd).
    apply NoDup_cons in Hnd' as (Hnot & Hnd').
    split; [exact Hl|]. split; [exact Hnd'|]. split; [tauto|]. split.
    + intros j Hj. rewrite Hp, elem_of_cons. tauto.
    + exists (l' ++ [id]). unfold toggle_selected.
      rewrite bool_decide_false by exact Hnot.
      split; [reflexivity|]. split.
      { rewrite Hp. symmetry. apply Permutation_cons_append. }
      split; [contradiction|]. intros _.
      destruct (list_remove_split _ _ _ Hl) as (pre & post & El & El' & _).
      exists pre, post. split; [exact El|]. split; [exact El'|].
      rewrite El'. symmetry. apply (assoc_L (++)).
  - rewrite bool_decide_false by exact Hout. exists (l ++ [id]).
    split; [reflexivity|]. split.
    { apply NoDup_app. split; [exact Hnd|]. split; [|apply NoDup_singleton].
      intros x Hx Hx'. apply list_elem_of_singleton in Hx'. subst x. contradiction. }
    split.
    { split; [intros _; exact Hout|]. intros _. apply elem_of_app. right.
      apply list_elem_of_singleton. reflexivity. }
    split.
    { intros j Hj. rewrite elem_of_app, list_elem_of_singleton. tauto. }
    exists l. unfold toggle_selected. rewrite bool_decide_true.
    + rewrite (list_remove_snoc _ _ Hout).
      split; [reflexivity|]. split; [reflexivity|]. split; [auto|contradiction].
    + apply elem_of_app. right. apply list_elem_of_singleton. reflexivity.
Qed.

Lemma X24_toggle_selected_flips_one_id_witness :
  exists l',
    toggle_selected 2 [1; 2; 3] = Ok l'
    /\ NoDup l'
    /\ (2 ∈ l' <-> 2 ∉ [1; 2; 3])
    /\ (forall j, j <> 2 -> j ∈ l' <-> j ∈ [1; 2; 3])
    /\ exists l'',
         toggle_selected 2 l' = Ok l''
         /\ l'' ≡ₚ [1; 2; 3]
         /\ (2 ∉ [1; 2; 3] -> l' = [1; 2; 3] ++ [2] /\ l'' = [1; 2; 3])
         /\ (2 ∈ [1; 2; 3] ->
             exists pre post,
               [1; 2; 3] = pre ++ 2 :: post
               /\ l' = pre ++ post
               /\ l'' = pre ++ post ++ [2]).
Proof.
  apply (X24_toggle_selected_flips_one_id 2 [1; 2; 3]).
  apply (bool_decide_unpack _). vm_compute. reflexivity.
Defined.

(** ** [interfaceRenamer] *)

Lemma prefix_length (a b : string) :
  String.prefix a b = true -> (String.length a <= String.length b)%nat.
Proof.
  revert b. induction a as [|c a IH]; intros b; [cbn; lia|].
  destruct b as [|d b]; cbn [String.prefix String.length]; [discriminate|].
  destruct (ascii_dec c d); [|discriminate].
  intros Hp. apply IH in Hp. lia.
Qed.

Lemma append_length (a b : string) :
  String.length (a +:+ b) = (String.length a + String.length b)%nat.
Proof.
  induction a as [|c a IH]; [reflexivity|].
  change (S (String.length (a +:+ b)) = S (String.length a + String.length b)).
  f_equal. exact IH.
Qed.

Lemma replace_from_length (old new : string) (skip : nat) (s : string) :
  (String.length new <= String.length old)%nat ->
  (String.length (replace_from old new skip s) + Nat.min skip (String.length s)
   <= String.length s)%nat.
Proof.
  intros Hlen. revert skip. induction s as [|c r IH]; intros skip.
  - cbn. lia.
  - cbn [replace_from]. destruct skip as [|k].
    + destruct (String.prefix old (String c r)) eqn:Hp.
      * apply prefix_length in Hp. cbn [String.length] in Hp |- *.
        rewrite append_length.
        pose proof (IH (Nat.pred (String.length old))). lia.
      * pose proof (IH 0%nat). cbn [String.length]. lia.
    + pose proof (IH k). cbn [String.length]. lia.
Qed.

Lemma replace_absent (c0 : ascii) (old new s : string) :
  PyStr.contains c0 s = false -> replace (String c0 old) new s = s.
Proof.
  unfold replace. induction s as [|c r IH]; [reflexivity|].
  cbn [PyStr.contains replace_from String.prefix]. intros Hc.
  apply orb_false_iff in Hc as (Hne & Hr).
  destruct (ascii_dec c0 c) as [->|_].
  - rewrite Ascii.eqb_refl in Hne. discriminate.
  - rewrite (IH Hr). reflexivity.
Qed.

(** X25: [interfaceRenamer] never makes a name longer: each of its
    replacements puts a shorter text in the place of a longer one. *)
Theorem X25_interfaceRenamer_never_lengthens (s : string) :
  (String.length (interfaceRenamer s) <= String.length s)%nat.
Proof.
  unfold interfaceRenamer.
  assert (Hrules : Forall (fun rule : string * string =>
                             (String.length rule.2 <= String.length rule.1)%nat)
                     interface_rules).
  { unfold interface_rules. repeat constructor; cbn; lia. }
  revert s. induction Hrules as [|rule rules Hrule _ IH]; intros s; [cbn; lia|].
  cbn [foldl]. etransitivity; [apply IH|].
  pose proof (replace_from_length rule.1 rule.2 0 s Hrule) as Hle.
  unfold replace. lia.
Qed.

(** X26: a name with none of the capitals that the replaced words start
    with ([H], [G], [T], [F], [P], [L], [E] and [V]) is returned as it
    is. *)
Theorem X26_interfaceRenamer_keeps_other_names (s : string) :
  Forall (fun c => PyStr.contains c s = false)
    ["H"; "G"; "T"; "F"; "P"; "L"; "E"; "V"]%char ->
  interfaceRenamer s = s.
Proof.
  intros Hs.
  repeat match goal with
         | H : Forall _ (_ :: _) |- _ => apply Forall_cons in H as (? & H)
         end.
  unfold interfaceRenamer, interface_rules. cbn [foldl fst snd].
  repeat match goal with
         | |- context [replace (String ?c ?old) ?new s] =>
             rewrite (replace_absent c old new s) by assumption
         end.
  reflexivity.
Qed.

Lemma X26_interfaceRenamer_keeps_other_names_witness :
  interfaceRenamer "xe-0/0/1.100" = "xe-0/0/1.100".
Proof.
  apply X26_interfaceRenamer_keeps_other_names.
  repeat constructor.
Defined.

(** A word that ends with a character the text does not hold is no
    prefix of the text, and does not occur in it. *)
Lemma prefix_absent_last (e : ascii) (o t : string) :
  PyStr.contains e t = false -> String.prefix (o +:+ String e "") t = false.
Proof.
  revert t. induction o as [|a o IH]; intros t Ht.
  - destruct t as [|d t]; [reflexivity|].
    change ("" +:+ String e "") with (String e ""). cbn [String.prefix].
    cbn [PyStr.contains] in Ht. apply orb_false_iff in Ht as (Hne & _).
    destruct (ascii_dec e d) as [->|_]; [|reflexivity].
    rewrite Ascii.eqb_refl in Hne. discriminate.
  - destruct t as [|d t]; [reflexivity|].
    change (String a o +:+ String e "") with (String a (o +:+ String e "")).
    cbn [String.prefix]. cbn [PyStr.contains] in Ht.
    apply orb_false_iff in Ht as (_ & Ht).
    destruct (ascii_dec a d); [apply IH; exact Ht|reflexivity].
Qed.

Lemma prefix_app_tail (e : ascii) (o q t : string) :
  PyStr.contains e t = false ->
  String.prefix (o +:+ String e "") (q +:+ t) = String.prefix (o +:+ String e "") q.
Proof.
  intros Ht. revert o. induction q as [|c q IH]; intros o.
  - change ("" +:+ t) with t. rewrite (prefix_absent_last e o t Ht).
    destruct o; reflexivity.
  - change (String c q +:+ t) with (String c (q +:+ t)).
    destruct o as [|a o].
    + change ("" +:+ String e "") with (String e ""). cbn [String.prefix].
      destruct (ascii_dec e c); [|reflexivity].
      destruct q, t; reflexivity.
    + change (String a o +:+ String e "") with (String a (o +:+ String e "")).
      cbn [String.prefix]. destruct (ascii_dec a c); [apply IH|reflexivity].
Qed.

Lemma replace_from_absent_last (e : ascii) (o new t : string) :
  PyStr.contains e t = false -> replace_from (o +:+ String e "") new 0 t = t.
Proof.
  induction t as [|c r IH]; intros Ht; [reflexivity|].
  cbn [replace_from]. rewrite (prefix_absent_last e o _ Ht).
  cbn [PyStr.contains] in Ht. apply orb_false_iff in Ht as (_ & Hr).
  rewrite (IH Hr). reflexivity.
Qed.

Lemma append_assoc (a b c : string) : (a +:+ b) +:+ c = a +:+ (b +:+ c).
Proof.
  induction a as [|x a IH]; [reflexivity|].
  change (String x ((a +:+ b) +:+ c) = String x (a +:+ (b +:+ c))).
  f_equal. exact IH.
Qed.

Lemma replace_from_app_tail (e : ascii) (o new p t : string) (skip : nat) :
  PyStr.contains e t = false ->
  (skip <= String.length p)%nat ->
  replace_from (o +:+ String e "") new skip (p +:+ t)
  = replace_from (o +:+ String e "") new skip p +:+ t.
Proof.
  intros Ht. revert skip. induction p as [|c r IH]; intros skip Hskip.
  - cbn [String.length] in Hskip. assert (skip = 0%nat) as -> by lia.
    change ("" +:+ t) with t. rewrite (replace_from_absent_last e o new t Ht).
    reflexivity.
  - change (String c r +:+ t) with (String c (r +:+ t)).
    cbn [replace_from]. cbn [String.length] in Hskip. destruct skip as [|k].
    + change (String c (r +:+ t)) with (String c r +:+ t).
      rewrite (prefix_app_tail e o (String c r) t Ht).
      destruct (String.prefix (o +:+ String e "") (String c r)) eqn:Hp.
      * apply prefix_length in Hp. cbn [String.length] in Hp.
        rewrite IH by lia. rewrite append_assoc. reflexivity.
      * rewrite IH by lia. reflexivity.
    + apply IH. lia.
Qed.

(** X27: [interfaceRenamer] works on the name and carries what follows
    it over: a tail that holds none of the letters that the replaced
    words end with ([E], [t], [l], [k] and [n]), such as a unit number,
    takes no part in any replacement. *)
Theorem X27_interfaceRenamer_carries_the_tail_over (p t : string) :
  Forall (fun c => PyStr.contains c t = false) ["E"; "t"; "l"; "k"; "n"]%char ->
  interfaceRenamer (p +:+ t) = interfaceRenamer p +:+ t.
Proof.
  intros Ht.
  repeat match goal with
         | H : Forall _ (_ :: _) |- _ => apply Forall_cons in H as (? & H)
         end.
  assert (Hrules : Forall (fun rule : string * string =>
                     exists o e, rule.1 = o +:+ String e ""
                                 /\ PyStr.contains e t = false)
                     interface_rules).
  { unfold interface_rules.
    repeat (apply Forall_cons; split;
            [first [ exists "HundredGig", "E"%char; split; [reflexivity|assumption]
                   | exists "GigabitEtherne", "t"%char; split; [reflexivity|assumption]
                   | exists "TenGigiabitEtherne", "t"%char; split; [reflexivity|assumption]
                   | exists "TenGig", "E"%char; split; [reflexivity|assumption]
                   | exists "FastEtherne", "t"%char; split; [reflexivity|assumption]
                   | exists "Port-channe", "l"%char; split; [reflexivity|assumption]
                   | exists "Loopbac", "k"%char; split; [reflexivity|assumption]
                   | exists "Tunne", "l"%char; split; [reflexivity|assumption]
                   | exists "Etherne", "t"%char; split; [reflexivity|assumption]
                   | exists "Vla", "n"%char; split; [reflexivity|assumption] ]|]).
    apply Forall_nil_2. }
  unfold interfaceRenamer. revert p.
  induction Hrules as [|rule rules (o & e & Hold & He) _ IH]; intros p; [reflexivity|].
  cbn [foldl]. rewrite <- IH. f_equal. unfold replace. rewrite Hold.
  apply replace_from_app_tail; [exact He|lia].
Qed.

Lemma X27_interfaceRenamer_carries_the_tail_over_witness :
  interfaceRenamer "TenGigabitEthernet1/0/1" = "TenGi1/0/1".
Proof.
  apply (X27_interfaceRenamer_carries_the_tail_over "TenGigabitEthernet" "1/0/1").
  repeat constructor.
Defined.
